(** * tailwindcss-patch: the [TailwindcssPatcher] orchestrator

    A shallow embedding of the module that defines [TailwindcssPatcher]:
    the version resolver, the selection of the v2/v3 build options, the
    reconciliation of the observed class set with the cache store, and
    the public operations [getClassSet], [getClassSetSync], [extract],
    [collectContentTokens] and [collectContentTokensByFile]; of the
    [extract] and [tokens] commands of [cli.ts] with their formatting
    helpers; and of the [normaliseRegex] helper of the configuration
    tests.

    JavaScript values are modelled as follows.
    - [T | undefined] (and [T | null]) is [option T]; [a ?? b] is
      [nullish]; a truthiness test on a string excludes the empty string,
      on a number it excludes [0].
    - A number that the code only compares and returns is a [Z].
    - [Set<string>] is [gset string]: what is stated is about membership.
      [Array.from(set)] is [elements set]; the insertion order of a
      JavaScript set is not tracked.
    - Effects (the cache file, the build, the output artefact, the log)
      are threaded through an explicit [World]; every effect appends an
      [Event] to the world's trace.  An [async] method is modelled like its
      blocking twin: each [await] is a completed step. *)

From Stdlib Require Import ZArith Ascii.
From stdpp Require Import gmap strings list pretty.

Local Open Scope Z_scope.

(** ** JavaScript helpers *)

(** [a ?? b] *)
Definition nullish {A : Type} (a : option A) (b : A) : A :=
  match a with
  | Some x => x
  | None => b
  end.

(** [a ?? b] where [b] may itself be [undefined] *)
Definition nullish_opt {A : Type} (a b : option A) : option A :=
  match a with
  | Some x => Some x
  | None => b
  end.

(** Truthiness of a [string | undefined | null] value. *)
Definition truthy_string (s : option string) : bool :=
  match s with
  | Some s => negb (String.eqb s "")
  | None => false
  end.

(** Truthiness of a [number | undefined] value. *)
Definition truthy_number (n : option Z) : bool :=
  match n with
  | Some n => negb (n =? 0)
  | None => false
  end.

(** [Array.prototype.includes] on numbers. *)
Definition includes (l : list Z) (x : Z) : bool :=
  existsb (Z.eqb x) l.

Fixpoint string_drop (n : nat) (s : string) : string :=
  match n, s with
  | O, _ => s
  | S n', String _ s' => string_drop n' s'
  | S _, EmptyString => EmptyString
  end.

(** [String.prototype.replace] with a string pattern: the first
    occurrence only. *)
Fixpoint replace_first (pat rep s : string) : string :=
  if String.prefix pat s
  then rep +:+ string_drop (String.length pat) s
  else match s with
       | EmptyString => EmptyString
       | String c s' => String c (replace_first pat rep s')
       end.

Definition LF : string := String (ascii_of_nat 10) EmptyString.

(** [Array.prototype.join] *)
Fixpoint join (sep : string) (l : list string) : string :=
  match l with
  | [] => ""
  | [x] => x
  | x :: rest => x +:+ sep +:+ join sep rest
  end.

(** ** Version resolver *)

(** The part of semver's [SemVer] object that the code reads. *)
Record SemVer := mkSemVer { major : Z; minor : Z; patch : Z }.

Section VersionResolver.

(** [coerce] of the [semver] package: [null] when no version can be
    read off the string. *)
Variable coerce : string -> option SemVer.

Definition resolveMajorVersion (version : option string) (hint : option Z) : Z :=
  if truthy_number hint && includes [2; 3; 4] (nullish hint 0)
  then nullish hint 0
  else
    match version with
    | Some v =>
        if truthy_string version
        then
          match coerce v with
          | Some coerced =>
              let major := major coerced in
              if (major =? 2) || (major =? 3) || (major =? 4)
              then major
              else if major >=? 4 then 4 else 3
          | None => 3
          end
        else 3
    | None => 3
    end.

End VersionResolver.

(** A coercion for plain dotted version strings: the first run of decimal
    digits is the major component.  It stands for semver's [coerce] where
    the theorems are evaluated on concrete version strings. *)
Definition digit_of (c : ascii) : option Z :=
  let n := Z.of_nat (nat_of_ascii c) in
  if (48 <=? n) && (n <=? 57) then Some (n - 48) else None.

Fixpoint read_number (acc : Z) (s : string) : Z * string :=
  match s with
  | EmptyString => (acc, EmptyString)
  | String c s' =>
      match digit_of c with
      | Some d => read_number (10 * acc + d) s'
      | None => (acc, s)
      end
  end.

Definition read_component (s : string) : Z * string :=
  match s with
  | String "." s' =>
      match s' with
      | String c _ =>
          match digit_of c with
          | Some _ => read_number 0 s'
          | None => (0, s)
          end
      | EmptyString => (0, s)
      end
  | _ => (0, s)
  end.

Fixpoint coerce_dotted (s : string) : option SemVer :=
  match s with
  | EmptyString => None
  | String c s' =>
      match digit_of c with
      | Some _ =>
          let '(ma, r1) := read_number 0 s in
          let '(mi, r2) := read_component r1 in
          let '(pa, _) := read_component r2 in
          Some (mkSemVer ma mi pa)
      | None => coerce_dotted s'
      end
  end.


(** ** Normalized options *)

Inductive CacheStrategy := merge | overwrite.
Inductive OutputFormat := json | lines.

(** [output.pretty] is a number (the indent width) or a boolean. *)
Inductive Pretty := PrettyNumber (n : Z) | PrettyBoolean (b : bool).

Record SourceEntry := mkSourceEntry {
  base : string;
  pattern : string;
  negated : bool
}.

(** The [v2] and [v3] sub-configurations. *)
Module VersionConfig.
Record t := mk {
  cwd : option string;
  config : option string;
  postcssPlugin : option string
}.
End VersionConfig.

Module V4Config.
Record t := mk {
  cssEntries : option (list string);
  sources : option (list SourceEntry)
}.
End V4Config.

Module Tailwind.
Record t := mk {
  packageName : string;
  resolve : option (list string);
  versionHint : option Z;
  cwd : option string;
  config : option string;
  postcssPlugin : option string;
  v2 : option VersionConfig.t;
  v3 : option VersionConfig.t;
  v4 : option V4Config.t
}.
End Tailwind.

Module Cache.
Record t := mk {
  enabled : bool;
  dir : string;
  file : string;
  strategy : CacheStrategy
}.
End Cache.

Module Output.
Record t := mk {
  enabled : bool;
  file : option string;
  format : OutputFormat;
  pretty : Pretty;
  removeUniversalSelector : bool
}.
End Output.

Record NormalizedTailwindcssPatchOptions := mkOptions {
  projectRoot : string;
  tailwind : Tailwind.t;
  cache : Cache.t;
  output : Output.t;
  filter : string -> bool;
  refProperty : string  (* features.exposeContext.refProperty *)
}.

(** ** Execution options of the v2/v3 build *)

Record ExecutionOptions := mkExecutionOptions {
  exec_cwd : string;
  exec_config : option string;
  exec_postcssPlugin : option string
}.

Definition resolveTailwindExecutionOptions
    (normalized : NormalizedTailwindcssPatchOptions) (majorVersion : Z)
    : ExecutionOptions :=
  let base := tailwind normalized in
  match (if majorVersion =? 2 then Tailwind.v2 base else None) with
  | Some v2 =>
      {| exec_cwd :=
           nullish (nullish_opt (VersionConfig.cwd v2) (Tailwind.cwd base))
                   (projectRoot normalized);
         exec_config := nullish_opt (VersionConfig.config v2) (Tailwind.config base);
         exec_postcssPlugin :=
           nullish_opt (VersionConfig.postcssPlugin v2) (Tailwind.postcssPlugin base) |}
  | None =>
      match (if majorVersion =? 3 then Tailwind.v3 base else None) with
      | Some v3 =>
          {| exec_cwd :=
               nullish (nullish_opt (VersionConfig.cwd v3) (Tailwind.cwd base))
                       (projectRoot normalized);
             exec_config := nullish_opt (VersionConfig.config v3) (Tailwind.config base);
             exec_postcssPlugin :=
               nullish_opt (VersionConfig.postcssPlugin v3) (Tailwind.postcssPlugin base) |}
      | None =>
          {| exec_cwd := nullish (Tailwind.cwd base) (projectRoot normalized);
             exec_config := Tailwind.config base;
             exec_postcssPlugin := Tailwind.postcssPlugin base |}
      end
  end.

(** ** The world and its effects *)

Inductive Event :=
| RunTailwindBuild (cwd : string) (config : option string)
                   (majorVersion : Z) (postcssPlugin : option string)
| LoadRuntimeContexts (majorVersion : Z) (refProperty : string)
| CollectClassesFromTailwindV4
| CacheRead
| CacheWrite (set : gset string)
| EnsureDir (dir : string)
| WriteJSON (target : string) (data : list string) (spaces : option Z)
| WriteFile (target content : string)
| LoggerSuccess (message : string)
| ExtractProjectCandidates (cwd : string) (sources : list SourceEntry).

(** [cacheFile] is the content of the file behind the patcher's cache
    store ([None]: no file); [trace] lists the effects so far, oldest
    first. *)
Record World := mkWorld {
  cacheFile : option (gset string);
  trace : list Event
}.

Inductive Result (A : Type) :=
| Ok (value : A)
| Throw (message : string).
Arguments Ok {A} value.
Arguments Throw {A} message.

(** A computation runs in a world and returns a value or throws; the
    effects made before a throw stay. *)
Definition M (A : Type) : Type := World -> Result A * World.

Definition ret {A : Type} (a : A) : M A := fun w => (Ok a, w).

Definition throw {A : Type} (message : string) : M A := fun w => (Throw message, w).

Definition bind {A B : Type} (c : M A) (k : A -> M B) : M B :=
  fun w =>
    match c w with
    | (Ok a, w') => k a w'
    | (Throw message, w') => (Throw message, w')
    end.

Notation "'let*' x ':=' c 'in' k" := (bind c (fun x => k))
  (at level 10, x pattern, c at level 100, k at level 200).

Definition emit (e : Event) : M unit :=
  fun w => (Ok tt, {| cacheFile := cacheFile w; trace := trace w ++ [e] |}).

(** Counters over a trace. *)
Definition is_build (e : Event) : bool :=
  match e with RunTailwindBuild _ _ _ _ => true | _ => false end.

Definition is_cache_access (e : Event) : bool :=
  match e with CacheRead | CacheWrite _ => true | _ => false end.

Definition is_collection (e : Event) : bool :=
  match e with
  | LoadRuntimeContexts _ _ | CollectClassesFromTailwindV4 => true
  | _ => false
  end.

Definition builds (tr : list Event) : nat := length (List.filter is_build tr).

(** The files written by [fs.writeJSON] and [fs.writeFile]. *)
Fixpoint filesWritten (tr : list Event) : list string :=
  match tr with
  | [] => []
  | WriteJSON target _ _ :: tr' => target :: filesWritten tr'
  | WriteFile target _ :: tr' => target :: filesWritten tr'
  | _ :: tr' => filesWritten tr'
  end.

(** ** Cache store *)

Record CacheStore := mkCacheStore { storeOptions : Cache.t }.

(** Modelled from the spec: [cache/store.ts] is not among the sources.
    [read] returns the persisted set, the empty set when there is no
    (readable) file, and never raises. *)
Definition CacheStore_read (store : CacheStore) : M (gset string) :=
  let* _ := emit CacheRead in
  fun w => (Ok (default ∅ (cacheFile w)), w).

(** Modelled from the spec: [write] of the absent [cache/store.ts]
    persists exactly the given set, replacing any prior content. *)
Definition CacheStore_write (store : CacheStore) (set : gset string) : M unit :=
  let* _ := emit (CacheWrite set) in
  fun w => (Ok tt, {| cacheFile := Some set; trace := trace w |}).

(** Modelled from the spec: [readSync] of the absent [cache/store.ts],
    with the semantics of [read]. *)
Definition CacheStore_readSync (store : CacheStore) : M (gset string) :=
  CacheStore_read store.

(** Modelled from the spec: [writeSync] of the absent [cache/store.ts],
    with the semantics of [write]. *)
Definition CacheStore_writeSync (store : CacheStore) (set : gset string) : M unit :=
  CacheStore_write store set.

(** ** File system and logger *)

Definition fs_ensureDir (dir : string) : M unit := emit (EnsureDir dir).

Definition fs_writeJSON (target : string) (data : list string) (spaces : option Z) : M unit :=
  emit (WriteJSON target data spaces).

Definition fs_writeFile (target content : string) : M unit :=
  emit (WriteFile target content).

Definition logger_success (message : string) : M unit := emit (LoggerSuccess message).

(** ** Token report *)

Record TokenLocation := mkTokenLocation {
  tokenFile : string;
  relativeFile : string;
  line : Z;
  column : Z;
  tokenStart : Z;
  tokenEnd : Z;
  rawCandidate : string
}.

Record SkippedFile := mkSkippedFile { skippedFile : string; reason : string }.

Record TailwindTokenReport := mkReport {
  entries : list TokenLocation;
  filesScanned : nat;
  skippedFiles : list SkippedFile
}.

(** ** The patcher *)

Record PackageInfo := mkPackageInfo {
  name : string;
  version : option string;
  rootPath : string
}.

Record TailwindcssPatcher := mkPatcher {
  options : NormalizedTailwindcssPatchOptions;
  packageInfo : PackageInfo;
  majorVersion : Z;
  cacheStore : CacheStore
}.

Record ExtractResult := mkExtractResult {
  classList : list string;
  classSet : gset string;
  filename : option string
}.

Record ExtractOptions := mkExtractOptions { write : option bool }.

Record ContentTokenOptions := mkContentTokenOptions {
  tokens_cwd : option string;
  tokens_sources : option (list SourceEntry)
}.

Definition DQUOTE : string := String (ascii_of_nat 34) EmptyString.

Section Patcher.

(** *** Collaborators outside the sources *)

Variable coerce : string -> option SemVer.

(** The legacy and the current option shapes, and their adapters. *)
Variables LegacyTailwindcssPatcherOptions TailwindcssPatchOptions : Type.
Variable fromLegacyOptions : LegacyTailwindcssPatcherOptions -> TailwindcssPatchOptions.
Variable normalizeOptions : TailwindcssPatchOptions -> NormalizedTailwindcssPatchOptions.

(** [local-pkg]: [undefined] when the package cannot be resolved. *)
Variable getPackageInfoSync : string -> option (list string) -> option PackageInfo.

(** The build of [runtime/process-tailwindcss]: [Some message] when it
    rejects in the given world. *)
Variable buildFailure : World -> ExecutionOptions -> Z -> option string.

(** The runtime contexts of [runtime/context-registry] and the
    collectors of [runtime/class-collector]; what they see depends on
    what ran before. *)
Variable Contexts : Type.
Variable loadRuntimeContexts : World -> PackageInfo -> Z -> string -> Contexts.
Variable collectClassesFromContexts : Contexts -> (string -> bool) -> gset string.
Variable collectClassesFromTailwindV4 :
  World -> NormalizedTailwindcssPatchOptions -> Result (gset string).

(** [pathe] and [process]. *)
Variable path_resolve : string -> string.
Variable path_dirname : string -> string.
Variable process_cwd : string.

(** The project files under a directory, the glob match of one source
    entry, and the per-file candidate extraction ([inl reason] when the
    file cannot be parsed). *)
Variable projectFiles : string -> list string.
Variable sourceMatches : string -> SourceEntry -> string -> bool.
Variable extractFile : string -> string + list TokenLocation.

(** [runTailwindBuild] of [runtime/process-tailwindcss], outside the
    sources: every invocation is recorded with its arguments; whether it
    rejects is [buildFailure]. *)
Definition runTailwindBuild (exec : ExecutionOptions) (majorVersion : Z) : M unit :=
  fun w =>
    let w' := {| cacheFile := cacheFile w;
                 trace := trace w ++ [RunTailwindBuild (exec_cwd exec) (exec_config exec)
                                        majorVersion (exec_postcssPlugin exec)] |} in
    match buildFailure w exec majorVersion with
    | None => (Ok tt, w')
    | Some message => (Throw message, w')
    end.

(** Modelled from the spec: the token extractor of the absent
    [extraction/candidate-extractor.ts] scans the files matched by
    [sources]. *)
Definition scannedFiles (cwd : string) (sources : list SourceEntry) : list string :=
  List.filter (fun f => existsb (fun s => sourceMatches cwd s f) sources) (projectFiles cwd).

(** Modelled from the spec: a file that fails to parse is recorded with
    its reason among the skipped files and the scan continues. *)
Fixpoint scanFiles (files : list string) : list TokenLocation * list SkippedFile :=
  match files with
  | [] => ([], [])
  | f :: rest =>
      let '(toks, skipped) := scanFiles rest in
      match extractFile f with
      | inl reason => (toks, mkSkippedFile f reason :: skipped)
      | inr found => (found ++ toks, skipped)
      end
  end.

(** Modelled from the spec: [extractProjectCandidatesWithPositions] of
    the absent [extraction/candidate-extractor.ts], the report of one scan
    of the files matched by [sources]. *)
Definition extractProjectCandidatesWithPositions
    (cwd : string) (sources : list SourceEntry) : M TailwindTokenReport :=
  let* _ := emit (ExtractProjectCandidates cwd sources) in
  let files := scannedFiles cwd sources in
  let '(toks, skipped) := scanFiles files in
  ret {| entries := toks; filesScanned := length files; skippedFiles := skipped |}.

(** *** [constructor] *)

Inductive TailwindcssPatcherInitOptions :=
| LegacyShape (o : LegacyTailwindcssPatcherOptions)  (* 'patch' in options *)
| CurrentShape (o : TailwindcssPatchOptions).

Definition new_TailwindcssPatcher (options : TailwindcssPatcherInitOptions)
    : Result TailwindcssPatcher :=
  let resolvedOptions :=
    match options with
    | LegacyShape o => fromLegacyOptions o
    | CurrentShape o => o
    end in
  let this_options := normalizeOptions resolvedOptions in
  let packageInfo :=
    getPackageInfoSync (Tailwind.packageName (tailwind this_options))
                       (Tailwind.resolve (tailwind this_options)) in
  match packageInfo with
  | None =>
      Throw ("Unable to locate Tailwind CSS package " +:+ DQUOTE
             +:+ Tailwind.packageName (tailwind this_options) +:+ DQUOTE +:+ ".")
  | Some packageInfo =>
      Ok {| options := this_options;
            packageInfo := packageInfo;
            majorVersion :=
              resolveMajorVersion coerce (version packageInfo)
                                  (Tailwind.versionHint (tailwind this_options));
            cacheStore := mkCacheStore (cache this_options) |}
  end.

(** *** Collection *)

Definition getContexts (this : TailwindcssPatcher) : M Contexts :=
  let* _ := emit (LoadRuntimeContexts (majorVersion this) (refProperty (options this))) in
  fun w =>
    (Ok (loadRuntimeContexts w (packageInfo this) (majorVersion this)
                             (refProperty (options this))), w).

Definition runTailwindBuildIfNeeded (this : TailwindcssPatcher) : M unit :=
  if (majorVersion this =? 2) || (majorVersion this =? 3)
  then
    let executionOptions :=
      resolveTailwindExecutionOptions (options this) (majorVersion this) in
    runTailwindBuild executionOptions (majorVersion this)
  else ret tt.

Definition collectClassSet (this : TailwindcssPatcher) : M (gset string) :=
  if majorVersion this =? 4
  then
    let* _ := emit CollectClassesFromTailwindV4 in
    fun w => (collectClassesFromTailwindV4 w (options this), w)
  else
    let* contexts := getContexts this in
    ret (collectClassesFromContexts contexts (filter (options this))).

Definition collectClassSetSync (this : TailwindcssPatcher) : M (gset string) :=
  if majorVersion this =? 4
  then throw "getClassSetSync is not supported for Tailwind CSS v4 projects. Use getClassSet instead."
  else
    let* contexts := getContexts this in
    ret (collectClassesFromContexts contexts (filter (options this))).

(** *** Reconciliation with the cache *)

(** [for (const value of existing) set.add(value)] *)
Definition addAll (existing set : gset string) : gset string :=
  set_fold (fun value acc => {[value]} ∪ acc) set existing.

Definition mergeWithCache (this : TailwindcssPatcher) (set : gset string)
    : M (gset string) :=
  if negb (Cache.enabled (cache (options this)))
  then ret set
  else
    let* existing := CacheStore_read (cacheStore this) in
    match Cache.strategy (cache (options this)) with
    | merge =>
        let set := addAll existing set in
        let* _ := CacheStore_write (cacheStore this) set in
        ret set
    | overwrite =>
        if (0 <? size set)%nat
        then
          let* _ := CacheStore_write (cacheStore this) set in
          ret set
        else ret existing
    end.

Definition mergeWithCacheSync (this : TailwindcssPatcher) (set : gset string)
    : M (gset string) :=
  if negb (Cache.enabled (cache (options this)))
  then ret set
  else
    let* existing := CacheStore_readSync (cacheStore this) in
    match Cache.strategy (cache (options this)) with
    | merge =>
        let set := addAll existing set in
        let* _ := CacheStore_writeSync (cacheStore this) set in
        ret set
    | overwrite =>
        if (0 <? size set)%nat
        then
          let* _ := CacheStore_writeSync (cacheStore this) set in
          ret set
        else ret existing
    end.

(** *** Public operations *)

Definition getClassSet (this : TailwindcssPatcher) : M (gset string) :=
  let* _ := runTailwindBuildIfNeeded this in
  let* set := collectClassSet this in
  mergeWithCache this set.

Definition getClassSetSync (this : TailwindcssPatcher) : M (gset string) :=
  let* set := collectClassSetSync this in
  mergeWithCacheSync this set.

Definition extract (this : TailwindcssPatcher) (opts : option ExtractOptions)
    : M ExtractResult :=
  let shouldWrite :=
    nullish (match opts with Some o => write o | None => None end)
            (Output.enabled (output (options this))) in
  let* classSet := getClassSet this in
  let classList := elements classSet in
  let result := {| classList := classList; classSet := classSet; filename := None |} in
  if negb shouldWrite || negb (truthy_string (Output.file (output (options this))))
  then ret result
  else
    let target := path_resolve (nullish (Output.file (output (options this))) "") in
    let* _ := fs_ensureDir (path_dirname target) in
    let* _ :=
      match Output.format (output (options this)) with
      | json =>
          let spaces :=
            match Output.pretty (output (options this)) with
            | PrettyNumber n => Some n
            | PrettyBoolean _ => None
            end in
          fs_writeJSON target classList spaces
      | lines => fs_writeFile target (join LF classList +:+ LF)
      end in
    let* _ :=
      logger_success ("Tailwind CSS class list saved to "
                      +:+ replace_first process_cwd "." target) in
    ret {| classList := classList; classSet := classSet; filename := Some target |}.

Definition collectContentTokens (this : TailwindcssPatcher)
    (opts : option ContentTokenOptions) : M TailwindTokenReport :=
  extractProjectCandidatesWithPositions
    (nullish (match opts with Some o => tokens_cwd o | None => None end)
             (projectRoot (options this)))
    (nullish
       (nullish_opt (match opts with Some o => tokens_sources o | None => None end)
                    (match Tailwind.v4 (tailwind (options this)) with
                     | Some v4 => V4Config.sources v4
                     | None => None
                     end))
       []).

End Patcher.

Arguments getContexts {Contexts}.
Arguments collectClassSet {Contexts}.
Arguments collectClassSetSync {Contexts}.
Arguments getClassSet buildFailure {Contexts}.
Arguments getClassSetSync {Contexts}.
Arguments extract buildFailure {Contexts}.
Arguments new_TailwindcssPatcher coerce {_ _}.
Arguments LegacyShape {_ _}.
Arguments CurrentShape {_ _}.

(** ** A concrete project

    A small installation on which the operations can be run: the package
    [tailwindcss] resolves to version 3.4.1, every build succeeds, the
    runtime contexts know three classes and the v4 pipeline two. *)
Module Sample.

Definition getPackageInfoSync (name : string) (resolve : option (list string))
    : option PackageInfo :=
  if String.eqb name "tailwindcss"
  then Some (mkPackageInfo "tailwindcss" (Some "3.4.1") "/project/node_modules/tailwindcss")
  else None.

Definition buildFailure (w : World) (exec : ExecutionOptions) (majorVersion : Z)
    : option string := None.

Definition loadRuntimeContexts (w : World) (info : PackageInfo) (majorVersion : Z)
    (refProperty : string) : gset string :=
  {[ "flex"; "p-4"; "text-sm" ]}.

Definition collectClassesFromContexts (contexts : gset string) (keep : string -> bool)
    : gset string := contexts.

Definition collectClassesFromTailwindV4 (w : World)
    (normalized : NormalizedTailwindcssPatchOptions) : Result (gset string) :=
  Ok {[ "grid"; "gap-2" ]}.

Definition path_resolve (p : string) : string := "/project/" +:+ p.
Definition path_dirname (p : string) : string := "/project/out".
Definition process_cwd : string := "/project".

Definition projectFiles (cwd : string) : list string := ["src/a.html"; "src/b.html"].
Definition sourceMatches (cwd : string) (s : SourceEntry) (f : string) : bool := negb (negated s).
Definition extractFile (f : string) : string + list TokenLocation :=
  if String.eqb f "src/a.html"
  then inr [mkTokenLocation "/project/src/a.html" f 1 13 12 16 "flex"]
  else inl "unreadable".

Definition tailwindOptions (packageName : string) (hint : option Z) : Tailwind.t :=
  Tailwind.mk packageName None hint (Some "/project/app") None None
              None
              (Some (VersionConfig.mk None (Some "tailwind.v3.config.js") None))
              None.

Definition normalized (packageName : string) (hint : option Z) (cacheOn : bool)
    (strategy : CacheStrategy) (file : option string) : NormalizedTailwindcssPatchOptions :=
  {| projectRoot := "/project";
     tailwind := tailwindOptions packageName hint;
     cache := Cache.mk cacheOn ".cache" "classes.json" strategy;
     output := Output.mk true file json (PrettyNumber 2) true;
     filter := fun _ => true;
     refProperty := "contextRef" |}.

Definition normalizeOptions (o : NormalizedTailwindcssPatchOptions)
    : NormalizedTailwindcssPatchOptions := o.

Definition fromLegacyOptions (o : unit) : NormalizedTailwindcssPatchOptions :=
  normalized "tailwindcss" None true merge (Some "classes.json").

Definition patcher (majorVersion : Z) (cacheOn : bool) (strategy : CacheStrategy)
    (file : option string) : TailwindcssPatcher :=
  let o := normalized "tailwindcss" (Some majorVersion) cacheOn strategy file in
  {| options := o;
     packageInfo := mkPackageInfo "tailwindcss" (Some "3.4.1") "/project/node_modules/tailwindcss";
     majorVersion := majorVersion;
     cacheStore := mkCacheStore (cache o) |}.

Definition emptyWorld : World := {| cacheFile := None; trace := [] |}.

Definition cachedWorld (persisted : gset string) : World :=
  {| cacheFile := Some persisted; trace := [] |}.

End Sample.

(** ** Tokens grouped by file *)

Inductive TailwindTokenFileKey := relative | absolute.

(** The grouped map, as the list of its entries in the order of
    [Object.keys]; the keys of an object are distinct. *)
Definition TailwindTokenByFileMap : Type := list (string * list TokenLocation).

Record GroupOptions := mkGroupOptions {
  group_key : option TailwindTokenFileKey;
  group_stripAbsolutePaths : option bool
}.

Record TokensByFileOptions := mkTokensByFileOptions {
  byFile_cwd : option string;
  byFile_sources : option (list SourceEntry);
  byFile_key : option TailwindTokenFileKey;
  byFile_stripAbsolutePaths : option bool
}.

Section TokensByFile.

Variable projectFiles : string -> list string.
Variable sourceMatches : string -> SourceEntry -> string -> bool.
Variable extractFile : string -> string + list TokenLocation.

(** [groupTokensByFile] of [extraction/candidate-extractor], outside the
    sources. *)
Variable groupTokensByFile : TailwindTokenReport -> GroupOptions -> TailwindTokenByFileMap.

Definition collectContentTokensByFile (this : TailwindcssPatcher)
    (opts : option TokensByFileOptions) : M TailwindTokenByFileMap :=
  let* report :=
    collectContentTokens projectFiles sourceMatches extractFile this
      (Some {| tokens_cwd := match opts with Some o => byFile_cwd o | None => None end;
               tokens_sources :=
                 match opts with Some o => byFile_sources o | None => None end |}) in
  ret (groupTokensByFile report
         {| group_key := match opts with Some o => byFile_key o | None => None end;
            group_stripAbsolutePaths :=
              match opts with Some o => byFile_stripAbsolutePaths o | None => None end |}).

End TokensByFile.

(** ** Command line *)

(** [Array.prototype.includes] on strings. *)
Definition includes_string (l : list string) (x : string) : bool :=
  existsb (String.eqb x) l.

(** [Array.prototype.slice(0, end)] for an integer [end]. *)
Definition slice_to {A : Type} (stop : Z) (l : list A) : list A :=
  let len := Z.of_nat (length l) in
  take (Z.to_nat (if stop <? 0 then Z.max (len + stop) 0 else Z.min stop len)) l.

(** [map[file]] on the entries of an object. *)
Fixpoint property {A : Type} (map : list (string * A)) (file : string) : option A :=
  match map with
  | [] => None
  | (k, v) :: rest => if String.eqb k file then Some v else property rest file
  end.

Definition formatTokenLine (entry : TokenLocation) : string :=
  relativeFile entry +:+ ":" +:+ pretty (line entry) +:+ ":" +:+ pretty (column entry)
  +:+ " " +:+ rawCandidate entry
  +:+ " (" +:+ pretty (tokenStart entry) +:+ "-" +:+ pretty (tokenEnd entry) +:+ ")".

Record GroupedPreview := mkGroupedPreview { preview : string; moreFiles : Z }.

(** The [lines] of [formatGroupedPreview]. *)
Definition groupedPreviewLines (map : TailwindTokenByFileMap) (limit : Z) : list string :=
  let files := List.map fst map in
  List.map
    (fun file =>
       let tokens := default [] (property map file) in
       let sample := join ", " (List.map rawCandidate (slice_to 3 tokens)) in
       let suffix := if (3 <? length tokens)%nat then ", …" else "" in
       file +:+ ": " +:+ pretty (length tokens) +:+ " tokens (" +:+ sample +:+ suffix +:+ ")")
    (slice_to limit files).

Definition formatGroupedPreview (map : TailwindTokenByFileMap) (limit : Z) : GroupedPreview :=
  let files := List.map fst map in
  if negb (0 <? length files)%nat
  then {| preview := ""; moreFiles := 0 |}
  else {| preview := join LF (groupedPreviewLines map limit);
          moreFiles := Z.max 0 (Z.of_nat (length files) - limit) |}.

Definition TOKEN_FORMATS : list string := ["json"; "lines"; "grouped-json"].

(** What a command does itself.  In every command these effects come
    after the patcher's, so a command is modelled as a computation over
    the patcher's world that returns its own effects, in order.  The text
    [JSON.stringify] produces is kept as the data it serializes. *)
Inductive CliEvent :=
| CliEnsureDir (dir : string)
| CliWriteReport (target : string) (report : TailwindTokenReport) (spaces : Z)
| CliWriteGrouped (target : string) (map : TailwindTokenByFileMap) (spaces : Z)
| CliWriteFile (target content : string)
| CliSuccess (message : string)
| CliLog (message : string)
| CliInfo (message : string)
| CliInfoEntries (entries : list TokenLocation) (spaces : Z)
| CliWarn (message : string).

Definition is_fs_event (e : CliEvent) : bool :=
  match e with
  | CliEnsureDir _ | CliWriteReport _ _ _ | CliWriteGrouped _ _ _ | CliWriteFile _ _ => true
  | _ => false
  end.

Definition is_warning (e : CliEvent) : bool :=
  match e with CliWarn _ => true | _ => false end.

(** The files a command writes itself. *)
Fixpoint cliFilesWritten (evs : list CliEvent) : list string :=
  match evs with
  | [] => []
  | CliWriteReport target _ _ :: rest => target :: cliFilesWritten rest
  | CliWriteGrouped target _ _ :: rest => target :: cliFilesWritten rest
  | CliWriteFile target _ :: rest => target :: cliFilesWritten rest
  | _ :: rest => cliFilesWritten rest
  end.

Record TokensArgs := mkTokensArgs {
  tokens_args_cwd : string;
  tokens_args_output : option string;
  tokens_args_format : option string;
  tokens_args_groupKey : option string;
  tokens_args_write : option bool
}.

Record ExtractArgs := mkExtractArgs {
  extract_args_cwd : string;
  extract_args_output : option string;
  extract_args_format : option string;
  extract_args_css : option string;
  extract_args_write : option bool
}.

(** The [overrides] object the commands build. *)
Record Overrides := mkOverrides {
  overrides_output : option (option string * option string);  (* file, format *)
  overrides_tailwind : option (list string)                   (* v4.cssEntries *)
}.

(** The loaded configuration: its [registry] and its legacy [patch]. *)
Record LoadedConfig (Registry LegacyPatch : Type) := mkLoadedConfig {
  config_registry : option Registry;
  config_patch : option LegacyPatch
}.
Arguments mkLoadedConfig {Registry LegacyPatch}.
Arguments config_registry {Registry LegacyPatch}.
Arguments config_patch {Registry LegacyPatch}.

Definition liftResult {A : Type} (r : Result A) : M A := fun w => (r, w).

Section CommandLine.

Variable coerce : string -> option SemVer.
Variables Registry LegacyPatch LegacyTailwindcssPatcherOptions TailwindcssPatchOptions : Type.

(** [getConfig] of the config package: the loaded [config], possibly
    undefined, or a rejection. *)
Variable getConfig : World -> string -> Result (option (LoadedConfig Registry LegacyPatch)).
Variable fromUnifiedConfig : Registry -> TailwindcssPatchOptions.
Variable fromLegacyOptions : LegacyTailwindcssPatcherOptions -> TailwindcssPatchOptions.
(** The object [{ patch }]. *)
Variable patchObject : LegacyPatch -> LegacyTailwindcssPatcherOptions.
(** The object [{}]. *)
Variable emptyOptions : TailwindcssPatchOptions.
Variable defu : Overrides -> TailwindcssPatchOptions -> TailwindcssPatchOptions.
Variable normalizeOptions : TailwindcssPatchOptions -> NormalizedTailwindcssPatchOptions.
Variable getPackageInfoSync : string -> option (list string) -> option PackageInfo.

Variable buildFailure : World -> ExecutionOptions -> Z -> option string.
Variable Contexts : Type.
Variable loadRuntimeContexts : World -> PackageInfo -> Z -> string -> Contexts.
Variable collectClassesFromContexts : Contexts -> (string -> bool) -> gset string.
Variable collectClassesFromTailwindV4 :
  World -> NormalizedTailwindcssPatchOptions -> Result (gset string).
Variable path_resolve : string -> string.
Variable path_dirname : string -> string.
Variable process_cwd : string.
Variable projectFiles : string -> list string.
Variable sourceMatches : string -> SourceEntry -> string -> bool.
Variable extractFile : string -> string + list TokenLocation.
Variable groupTokensByFile : TailwindTokenReport -> GroupOptions -> TailwindTokenByFileMap.

Definition loadPatchOptions (cwd : string) (overrides : option Overrides)
    : M TailwindcssPatchOptions :=
  let* config := (fun w => (getConfig w cwd, w)) in
  let base :=
    match config with
    | Some {| config_registry := Some registry |} => fromUnifiedConfig registry
    | Some {| config_registry := None; config_patch := Some legacy |} =>
        fromLegacyOptions (patchObject legacy)
    | _ => emptyOptions
    end in
  let merged := defu (nullish overrides (mkOverrides None None)) base in
  ret merged.

(** [new TailwindcssPatcher(options)] on merged options, which carry no
    [patch] key. *)
Definition newPatcher (options : TailwindcssPatchOptions) : M TailwindcssPatcher :=
  liftResult
    (new_TailwindcssPatcher coerce fromLegacyOptions normalizeOptions getPackageInfoSync
       (CurrentShape options)).

(** The [extract] command: the effects of the action after
    [patcher.extract]. *)
Definition extractCommand (args : ExtractArgs) : M (list CliEvent) :=
  let overrides :=
    {| overrides_output :=
         if truthy_string (extract_args_output args) || truthy_string (extract_args_format args)
         then Some (extract_args_output args, extract_args_format args)
         else None;
       overrides_tailwind :=
         if truthy_string (extract_args_css args)
         then Some [nullish (extract_args_css args) ""]
         else None |} in
  let* options := loadPatchOptions (extract_args_cwd args) (Some overrides) in
  let* patcher := newPatcher options in
  let* result :=
    extract buildFailure loadRuntimeContexts collectClassesFromContexts
            collectClassesFromTailwindV4 path_resolve path_dirname process_cwd
            patcher (Some (mkExtractOptions (extract_args_write args))) in
  if truthy_string (filename result)
  then ret [CliSuccess ("Collected " +:+ pretty (length (classList result)) +:+ " classes → "
                        +:+ nullish (filename result) "")]
  else ret [CliSuccess ("Collected " +:+ pretty (length (classList result)) +:+ " classes.")].

(** The [tokens] command, from the report on. *)
Definition tokensOutput (args : TokensArgs) (report : TailwindTokenReport) : list CliEvent :=
  let shouldWrite := nullish (tokens_args_write args) true in
  let format := nullish (tokens_args_format args) "json" in
  let format := if negb (includes_string TOKEN_FORMATS format) then "json" else format in
  let targetFile := nullish (tokens_args_output args) ".tw-patch/tw-token-report.json" in
  let groupKey :=
    match tokens_args_groupKey args with
    | Some k => if String.eqb k "absolute" then absolute else relative
    | None => relative
    end in
  let buildGrouped :=
    groupTokensByFile report
      {| group_key := Some groupKey;
         group_stripAbsolutePaths :=
           Some (match groupKey with absolute => false | relative => true end) |} in
  (if shouldWrite
   then
     let target := path_resolve targetFile in
     [CliEnsureDir (path_dirname target);
      (if String.eqb format "json" then CliWriteReport target report 2
       else if String.eqb format "grouped-json" then CliWriteGrouped target buildGrouped 2
       else CliWriteFile target
              (join LF (List.map formatTokenLine (entries report)) +:+ LF));
      CliSuccess ("Collected " +:+ pretty (length (entries report)) +:+ " tokens ("
                  +:+ format +:+ ") → " +:+ replace_first process_cwd "." target)]
   else
     CliSuccess ("Collected " +:+ pretty (length (entries report)) +:+ " tokens from "
                 +:+ pretty (filesScanned report) +:+ " files.")
     :: (if String.eqb format "lines"
         then
           let preview :=
             join LF (List.map formatTokenLine (slice_to 5 (entries report))) in
           if truthy_string (Some preview)
           then CliLog "" :: CliInfo preview
                :: (if (5 <? length (entries report))%nat
                    then [CliInfo ("…and " +:+ pretty (length (entries report) - 5)%nat
                                   +:+ " more.")]
                    else [])
           else []
         else if String.eqb format "grouped-json"
         then
           let shown := formatGroupedPreview buildGrouped 3 in
           if truthy_string (Some (preview shown))
           then CliLog "" :: CliInfo (preview shown)
                :: (if 0 <? moreFiles shown
                    then [CliInfo ("…and " +:+ pretty (moreFiles shown) +:+ " more files.")]
                    else [])
           else []
         else
           let previewEntries := slice_to 3 (entries report) in
           if (0 <? length previewEntries)%nat
           then [CliLog ""; CliInfoEntries previewEntries 2]
           else []))
  ++ (if (0 <? length (skippedFiles report))%nat
      then CliWarn "Skipped files:"
           :: List.map (fun skipped =>
                          CliWarn ("  • " +:+ skippedFile skipped
                                   +:+ " (" +:+ reason skipped +:+ ")"))
                       (skippedFiles report)
      else []).

(** The [tokens] command. *)
Definition tokensCommand (args : TokensArgs) : M (list CliEvent) :=
  let* options := loadPatchOptions (tokens_args_cwd args) None in
  let* patcher := newPatcher options in
  let* report := collectContentTokens projectFiles sourceMatches extractFile patcher None in
  ret (tokensOutput args report).

End CommandLine.

Arguments loadPatchOptions {Registry LegacyPatch LegacyTailwindcssPatcherOptions
                            TailwindcssPatchOptions}.
Arguments newPatcher coerce {LegacyTailwindcssPatcherOptions TailwindcssPatchOptions}.
Arguments extractCommand coerce {Registry LegacyPatch LegacyTailwindcssPatcherOptions
                                 TailwindcssPatchOptions} getConfig fromUnifiedConfig
                         fromLegacyOptions patchObject emptyOptions defu normalizeOptions
                         getPackageInfoSync buildFailure {Contexts}.
Arguments tokensCommand coerce {Registry LegacyPatch LegacyTailwindcssPatcherOptions
                                TailwindcssPatchOptions}.

(** ** Configuration values in the tests *)

(** The values a loaded configuration is made of. *)
Unset Elimination Schemes.
Inductive JsValue :=
| JsUndefined
| JsNull
| JsBoolean (b : bool)
| JsNumber (n : Z)
| JsString (s : string)
| JsRegExp (source flags : string)
| JsArray (items : list JsValue)
| JsObject (entries : list (string * JsValue)).
Set Elimination Schemes.

(** [RegExp.prototype.toString] *)
Definition regExpToString (source flags : string) : string :=
  "/" +:+ source +:+ "/" +:+ flags.

Fixpoint normaliseRegex (value : JsValue) : JsValue :=
  match value with
  | JsArray items => JsArray (List.map normaliseRegex items)
  | JsRegExp source flags => JsString (regExpToString source flags)
  | JsObject entries =>
      JsObject (List.map (fun '(key, val) => (key, normaliseRegex val)) entries)
  | _ => value
  end.



(** * Vocabulary of the statements *)

(** The sub-configuration that matches a major version: [v2] for 2, [v3]
    for 3, none otherwise. *)
Definition matchingSubConfig (normalized : NormalizedTailwindcssPatchOptions)
    (majorVersion : Z) : option VersionConfig.t :=
  if majorVersion =? 2 then Tailwind.v2 (tailwind normalized)
  else if majorVersion =? 3 then Tailwind.v3 (tailwind normalized)
  else None.

(** The set a read of the cache store returns in a world. *)
Definition persisted (w : World) : gset string := default ∅ (cacheFile w).

(** Successive runs on one patcher, each reconciling its observed set. *)
Fixpoint reconcileRuns (this : TailwindcssPatcher) (observations : list (gset string))
    (w : World) : World :=
  match observations with
  | [] => w
  | observed :: rest => reconcileRuns this rest (mergeWithCache this observed w).2
  end.

(** The hint is one of 2, 3, 4. *)
Definition validHint (hint : option Z) : Prop :=
  exists h, hint = Some h /\ (h = 2 \/ h = 3 \/ h = 4).

(** The options the constructor normalizes, by input shape. *)
Definition normalizedInit {Legacy Current : Type}
    (fromLegacyOptions : Legacy -> Current)
    (normalizeOptions : Current -> NormalizedTailwindcssPatchOptions)
    (init : TailwindcssPatcherInitOptions Legacy Current)
    : NormalizedTailwindcssPatchOptions :=
  match init with
  | LegacyShape o => normalizeOptions (fromLegacyOptions o)
  | CurrentShape o => normalizeOptions o
  end.

(** The write flag of a call of [extract]: the caller's, else
    [output.enabled]. *)
Definition resolvedWriteFlag (this : TailwindcssPatcher) (opts : option ExtractOptions)
    : bool :=
  match opts with
  | Some {| write := Some flag |} => flag
  | _ => Output.enabled (output (options this))
  end.

(** The v4 sources of the normalized options, none when [v4] or its
    [sources] is absent. *)
Definition configuredSources (this : TailwindcssPatcher) : list SourceEntry :=
  match Tailwind.v4 (tailwind (options this)) with
  | Some {| V4Config.sources := Some sources |} => sources
  | _ => []
  end.

(** Every string of a list followed by a line feed. *)
Fixpoint terminated (l : list string) : string :=
  match l with
  | [] => ""
  | x :: rest => x +:+ LF +:+ terminated rest
  end.

(** The artefact [extract] writes to [target] for a class list. *)
Definition outputArtefact (this : TailwindcssPatcher) (target : string)
    (classList : list string) : Event :=
  match Output.format (output (options this)) with
  | json =>
      WriteJSON target classList
        (match Output.pretty (output (options this)) with
         | PrettyNumber n => Some n
         | PrettyBoolean _ => None
         end)
  | lines =>
      WriteFile target (match classList with [] => LF | _ => terminated classList end)
  end.

(** The warnings of the [tokens] command for the skipped files of a
    report. *)
Definition skippedWarnings (report : TailwindTokenReport) : list CliEvent :=
  match skippedFiles report with
  | [] => []
  | skipped =>
      CliWarn "Skipped files:"
      :: List.map (fun f => CliWarn ("  • " +:+ skippedFile f +:+ " (" +:+ reason f +:+ ")"))
                  skipped
  end.

(** The [tokens] arguments with another format. *)
Definition withFormat (args : TokensArgs) (format : option string) : TokensArgs :=
  {| tokens_args_cwd := tokens_args_cwd args;
     tokens_args_output := tokens_args_output args;
     tokens_args_format := format;
     tokens_args_groupKey := tokens_args_groupKey args;
     tokens_args_write := tokens_args_write args |}.

(** The effects of a collection: the build, the collectors, the cache. *)
Definition is_collecting_event (e : Event) : bool :=
  is_build e || is_collection e || is_cache_access e.

(** The cwd and sources of the by-file options, as [collectContentTokens]
    takes them. *)
Definition scanOptions (opts : option TokensByFileOptions) : option ContentTokenOptions :=
  match opts with
  | Some o => Some {| tokens_cwd := byFile_cwd o; tokens_sources := byFile_sources o |}
  | None => None
  end.

Definition groupOptions (opts : option TokensByFileOptions) : GroupOptions :=
  match opts with
  | Some o => {| group_key := byFile_key o;
                 group_stripAbsolutePaths := byFile_stripAbsolutePaths o |}
  | None => {| group_key := None; group_stripAbsolutePaths := None |}
  end.

(** ** A concrete command line

    A project without a configuration file: the loaded configuration is
    undefined, so every command runs on the empty options, completed by
    the overrides. *)
Module SampleCli.

Definition getConfig (w : World) (cwd : string)
    : Result (option (LoadedConfig unit unit)) := Ok None.

Definition fromUnifiedConfig (registry : unit) : NormalizedTailwindcssPatchOptions :=
  Sample.normalized "tailwindcss" None true merge (Some "registry.json").

Definition patchObject (legacy : unit) : unit := tt.

Definition emptyOptions : NormalizedTailwindcssPatchOptions :=
  Sample.normalized "tailwindcss" (Some 4) false merge None.

Definition defu (overrides : Overrides) (base : NormalizedTailwindcssPatchOptions)
    : NormalizedTailwindcssPatchOptions :=
  match overrides_output overrides with
  | Some (Some file, _) =>
      {| projectRoot := projectRoot base;
         tailwind := tailwind base;
         cache := cache base;
         output := Output.mk true (Some file) json (PrettyNumber 2) true;
         filter := filter base;
         refProperty := refProperty base |}
  | _ => base
  end.

Definition notInstalled (name : string) (resolve : option (list string))
    : option PackageInfo := None.

Definition groupTokensByFile (report : TailwindTokenReport) (opts : GroupOptions)
    : TailwindTokenByFileMap :=
  List.map (fun token => (relativeFile token, [token])) (entries report).

Definition report : TailwindTokenReport :=
  {| entries := [mkTokenLocation "/project/src/a.html" "src/a.html" 1 13 12 16 "flex"];
     filesScanned := 2;
     skippedFiles := [mkSkippedFile "src/b.html" "unreadable"] |}.

Definition tokensArgs (format : option string) (write : option bool) : TokensArgs :=
  mkTokensArgs "/project" None format None write.

Definition extractArgs (output : option string) (write : option bool) : ExtractArgs :=
  mkExtractArgs "/project" output None None write.

End SampleCli.

(** * Properties *)

(** ** Version resolver *)

Lemma hint_test_true (hint : option Z) :
  validHint hint ->
  truthy_number hint && includes [2; 3; 4] (nullish hint 0) = true.
Proof.
  intros (h & -> & [-> | [-> | ->]]); reflexivity.
Qed.

Lemma hint_test_false (hint : option Z) :
  ~ validHint hint ->
  truthy_number hint && includes [2; 3; 4] (nullish hint 0) = false.
Proof.
  intros Hn. destruct hint as [h|]; [|reflexivity].
  apply not_true_is_false. intros Ht. apply Hn. exists h. split; [reflexivity|].
  apply andb_prop in Ht as [_ Hi]. cbn in Hi.
  rewrite !orb_true_iff in Hi. lia.
Qed.

Lemma resolveMajorVersion_range (coerce : string -> option SemVer)
    (version : option string) (hint : option Z) :
  let r := resolveMajorVersion coerce version hint in
  r = 2 \/ r = 3 \/ r = 4.
Proof.
  unfold resolveMajorVersion.
  destruct (truthy_number hint && includes [2; 3; 4] (nullish hint 0)) eqn:Hh.
  - destruct hint as [h|]; [|discriminate Hh].
    apply andb_prop in Hh as [_ Hi]. cbn in Hi |- *.
    rewrite !orb_true_iff in Hi. lia.
  - destruct version as [v|]; [|lia].
    destruct (truthy_string (Some v)); [|lia].
    destruct (coerce v) as [c|]; [|lia].
    cbn zeta.
    destruct ((major c =? 2) || (major c =? 3) || (major c =? 4)) eqn:Hm.
    + rewrite !orb_true_iff in Hm. lia.
    + destruct (major c >=? 4); lia.
Qed.

(** C4: [resolveMajorVersion] is total and returns 2, 3 or 4; a hint among
    2, 3, 4 is returned verbatim whatever the version string; otherwise the
    coerced major is returned when it is 2 or 3 and collapses to 4 from 4
    on; an absent, empty or unparsable version string gives 3.  The four
    documented evaluations follow ("4.0.0" and "4.5.2" for every coercion
    that reads major 4 off them). *)
Theorem resolveMajorVersion_policy :
  forall (coerce : string -> option SemVer) (version : option string) (hint : option Z),
    let r := resolveMajorVersion coerce version hint in
    (r = 2 \/ r = 3 \/ r = 4)
    /\ (forall h, hint = Some h -> h = 2 \/ h = 3 \/ h = 4 -> r = h)
    /\ (~ validHint hint ->
        (forall v c, version = Some v -> v <> "" -> coerce v = Some c ->
           (major c = 2 \/ major c = 3 -> r = major c)
           /\ (4 <= major c -> r = 4)
           /\ (major c < 2 -> r = 3))
        /\ (version = None -> r = 3)
        /\ (version = Some "" -> r = 3)
        /\ (forall v, version = Some v -> coerce v = None -> r = 3))
    /\ (forall c, coerce "4.0.0" = Some c -> major c = 4 ->
          resolveMajorVersion coerce (Some "4.0.0") None = 4)
    /\ (forall c, coerce "4.5.2" = Some c -> major c = 4 ->
          resolveMajorVersion coerce (Some "4.5.2") None = 4)
    /\ resolveMajorVersion coerce None None = 3
    /\ resolveMajorVersion coerce (Some "3.1.0") (Some 2) = 2.
Proof.
  intros coerce version hint r.
  split; [|split; [|split; [|split; [|split; [|split]]]]].
  - apply resolveMajorVersion_range.
  - intros h -> Hh. subst r. unfold resolveMajorVersion.
    rewrite hint_test_true; [reflexivity|]. exists h. auto.
  - intros Hn. subst r. unfold resolveMajorVersion.
    rewrite (hint_test_false _ Hn).
    split; [|split; [|split]].
    + intros v c -> Hv Hc. cbn [truthy_string].
      destruct (String.eqb_spec v ""); [contradiction|]. cbn [negb].
      rewrite Hc. cbn zeta.
      split; [|split].
      * intros Hm.
        replace ((major c =? 2) || (major c =? 3) || (major c =? 4)) with true;
          [reflexivity|].
        symmetry. rewrite !orb_true_iff. lia.
      * intros Hm.
        destruct ((major c =? 2) || (major c =? 3) || (major c =? 4)) eqn:Hb.
        -- rewrite !orb_true_iff in Hb. lia.
        -- replace (major c >=? 4) with true; [reflexivity|]. symmetry. lia.
      * intros Hm.
        replace ((major c =? 2) || (major c =? 3) || (major c =? 4)) with false.
        -- replace (major c >=? 4) with false; [reflexivity|]. symmetry. lia.
        -- symmetry. rewrite !orb_false_iff. lia.
    + intros ->. reflexivity.
    + intros ->. reflexivity.
    + intros v -> Hc. cbn [truthy_string].
      destruct (negb (String.eqb v "")); [|reflexivity]. rewrite Hc. reflexivity.
  - intros c Hc Hm. unfold resolveMajorVersion. cbn. rewrite Hc, Hm. reflexivity.
  - intros c Hc Hm. unfold resolveMajorVersion. cbn. rewrite Hc, Hm. reflexivity.
  - reflexivity.
  - reflexivity.
Qed.

(** The documented evaluations, on the dotted-version coercion. *)
Lemma resolveMajorVersion_policy_witness :
  resolveMajorVersion coerce_dotted (Some "4.0.0") None = 4
  /\ resolveMajorVersion coerce_dotted (Some "4.5.2") None = 4
  /\ resolveMajorVersion coerce_dotted None None = 3
  /\ resolveMajorVersion coerce_dotted (Some "3.1.0") (Some 2) = 2
  /\ resolveMajorVersion coerce_dotted (Some "17.0.1") (Some 7) = 4.
Proof.
  pose proof (resolveMajorVersion_policy coerce_dotted (Some "17.0.1") (Some 7))
    as (_ & _ & Hrest & H400 & H452 & Hnone & Hhint).
  split; [|split; [|split; [|split]]].
  - apply (H400 (mkSemVer 4 0 0)); reflexivity.
  - apply (H452 (mkSemVer 4 5 2)); reflexivity.
  - exact Hnone.
  - exact Hhint.
  - assert (Hn : ~ validHint (Some 7)).
    { intros (h & Heq & Hh). injection Heq as <-. lia. }
    destruct (Hrest Hn) as (Hv & _).
    destruct (Hv "17.0.1" (mkSemVer 17 0 1) eq_refl) as (_ & H4 & _).
    + discriminate.
    + reflexivity.
    + apply H4. cbn. lia.
Defined.

(** ** Execution options *)

(** C8: each field of the execution options comes from the matching
    per-version sub-configuration when it is set there, else from the
    shared [tailwind] field, and for [cwd] else from the project root; with
    no matching sub-configuration the shared fields are used, with the
    project root as the [cwd] fallback. *)
Theorem resolveTailwindExecutionOptions_precedence :
  forall (normalized : NormalizedTailwindcssPatchOptions) (majorVersion : Z),
    let base := tailwind normalized in
    let r := resolveTailwindExecutionOptions normalized majorVersion in
    match matchingSubConfig normalized majorVersion with
    | Some sub =>
        exec_cwd r =
          (match VersionConfig.cwd sub, Tailwind.cwd base with
           | Some c, _ => c
           | None, Some c => c
           | None, None => projectRoot normalized
           end)
        /\ exec_config r =
          (match VersionConfig.config sub with
           | Some c => Some c
           | None => Tailwind.config base
           end)
        /\ exec_postcssPlugin r =
          (match VersionConfig.postcssPlugin sub with
           | Some p => Some p
           | None => Tailwind.postcssPlugin base
           end)
    | None =>
        r = {| exec_cwd := match Tailwind.cwd base with
                           | Some c => c
                           | None => projectRoot normalized
                           end;
               exec_config := Tailwind.config base;
               exec_postcssPlugin := Tailwind.postcssPlugin base |}
    end.
Proof.
  intros normalized majorVersion base r. subst r base.
  unfold matchingSubConfig, resolveTailwindExecutionOptions.
  destruct (majorVersion =? 2) eqn:H2.
  - destruct (Tailwind.v2 (tailwind normalized)) as [sub|].
    + cbn. destruct (VersionConfig.cwd sub), (VersionConfig.config sub),
        (VersionConfig.postcssPlugin sub); auto.
    + assert ((majorVersion =? 3) = false) as -> by lia. reflexivity.
  - destruct (majorVersion =? 3) eqn:H3.
    + destruct (Tailwind.v3 (tailwind normalized)) as [sub|].
      * cbn. destruct (VersionConfig.cwd sub), (VersionConfig.config sub),
          (VersionConfig.postcssPlugin sub); auto.
      * reflexivity.
    + reflexivity.
Qed.

(** ** Reconciliation with the cache *)

Lemma addAll_union (existing set : gset string) :
  addAll existing set = existing ∪ set.
Proof.
  unfold addAll.
  apply (set_fold_ind_L (fun r X => r = X ∪ set)).
  - symmetry. apply (left_id_L ∅ (∪)).
  - intros x X r _ ->. apply (assoc_L (∪)).
Qed.

Lemma size_positive_test (set : gset string) :
  set <> ∅ -> (0 <? size set)%nat = true.
Proof.
  intros Hne. apply Nat.ltb_lt.
  destruct (decide (size set = 0%nat)) as [Hz|]; [|lia].
  apply size_empty_inv in Hz. exfalso. apply Hne. apply leibniz_equiv. exact Hz.
Qed.

Lemma CacheStore_read_run (store : CacheStore) (w : World) :
  CacheStore_read store w =
  (Ok (persisted w), {| cacheFile := cacheFile w; trace := trace w ++ [CacheRead] |}).
Proof. reflexivity. Qed.

Lemma CacheStore_write_run (store : CacheStore) (set : gset string) (w : World) :
  CacheStore_write store set w =
  (Ok tt, {| cacheFile := Some set; trace := trace w ++ [CacheWrite set] |}).
Proof. reflexivity. Qed.

(** One step of a sequence whose first computation is known. *)
Lemma bind_Ok {A B : Type} (c : M A) (k : A -> M B) (w w' : World) (a : A) :
  c w = (Ok a, w') -> bind c k w = k a w'.
Proof. intros H. unfold bind. rewrite H. reflexivity. Qed.

Lemma bind_Throw {A B : Type} (c : M A) (k : A -> M B) (w w' : World) (m : string) :
  c w = (Throw m, w') -> bind c k w = (Throw m, w').
Proof. intros H. unfold bind. rewrite H. reflexivity. Qed.

(** C1: with the cache enabled and the overwrite strategy, a non-empty
    observed set is written to the store as it is and returned; for an
    empty observed set the store is only read, the persisted file stays as
    it was and the persisted set is returned. *)
Theorem overwrite_reconciliation :
  forall (this : TailwindcssPatcher) (observed : gset string) (w : World),
    Cache.enabled (cache (options this)) = true ->
    Cache.strategy (cache (options this)) = overwrite ->
    (observed <> ∅ ->
       let done := (Ok observed,
                    {| cacheFile := Some observed;
                       trace := trace w ++ [CacheRead; CacheWrite observed] |}) in
       mergeWithCache this observed w = done
       /\ mergeWithCacheSync this observed w = done)
    /\ (observed = ∅ ->
       let kept := (Ok (persisted w),
                    {| cacheFile := cacheFile w; trace := trace w ++ [CacheRead] |}) in
       mergeWithCache this observed w = kept
       /\ mergeWithCacheSync this observed w = kept).
Proof.
  intros this observed w Hen Hst.
  split.
  - intros Hne done.
    assert (mergeWithCache this observed w = done) as Hm; [|split; exact Hm].
    unfold mergeWithCache. rewrite Hen, Hst. cbn [negb].
    rewrite (bind_Ok _ _ _ _ _ (CacheStore_read_run _ w)).
    rewrite (size_positive_test _ Hne).
    rewrite (bind_Ok _ _ _ _ _ (CacheStore_write_run _ _ _)).
    subst done. unfold ret. cbn [cacheFile trace]. rewrite <- app_assoc. reflexivity.
  - intros -> kept.
    assert (mergeWithCache this ∅ w = kept) as Hm; [|split; exact Hm].
    unfold mergeWithCache. rewrite Hen, Hst. cbn [negb].
    rewrite (bind_Ok _ _ _ _ _ (CacheStore_read_run _ w)).
    rewrite size_empty. reflexivity.
Qed.

(** On a store that holds one class: a run that observes a class replaces
    it, a run that observes nothing keeps it. *)
Lemma overwrite_reconciliation_witness :
  let this := Sample.patcher 3 true overwrite None in
  let w := Sample.cachedWorld {[ "old" ]} in
  mergeWithCache this {[ "flex" ]} w =
    (Ok {[ "flex" ]},
     {| cacheFile := Some {[ "flex" ]};
        trace := [CacheRead; CacheWrite {[ "flex" ]}] |})
  /\ mergeWithCacheSync this ∅ w =
    (Ok {[ "old" ]}, {| cacheFile := Some {[ "old" ]}; trace := [CacheRead] |}).
Proof.
  intros this w. split.
  - destruct (overwrite_reconciliation this {[ "flex" ]} w eq_refl eq_refl) as [Hne _].
    apply Hne. apply non_empty_singleton_L.
  - destruct (overwrite_reconciliation this ∅ w eq_refl eq_refl) as [_ He].
    apply He. reflexivity.
Defined.

Lemma reconcileRuns_persisted (this : TailwindcssPatcher) :
  Cache.enabled (cache (options this)) = true ->
  Cache.strategy (cache (options this)) = merge ->
  forall (observations : list (gset string)) (w : World),
    persisted (reconcileRuns this observations w) = persisted w ∪ ⋃ observations.
Proof.
  intros Hen Hst observations.
  induction observations as [|observed rest IH]; intros w.
  - cbn. symmetry. apply (right_id_L ∅ (∪)).
  - cbn [reconcileRuns]. rewrite IH.
    unfold mergeWithCache. rewrite Hen, Hst. cbn [negb].
    rewrite (bind_Ok _ _ _ _ _ (CacheStore_read_run _ w)).
    rewrite (bind_Ok _ _ _ _ _ (CacheStore_write_run _ _ _)).
    unfold ret, persisted at 1. cbn [snd cacheFile default].
    rewrite addAll_union. cbn [union_list foldr id].
    symmetry. apply (assoc_L (∪)).
Qed.

(** C2: with the cache enabled and the merge strategy, the reconciliation
    returns the union of the persisted and the observed set and writes it
    back, also for an empty observed set; so the persisted set only grows,
    over one run and over any sequence of runs. *)
Theorem merge_reconciliation :
  forall (this : TailwindcssPatcher) (observed : gset string) (w : World),
    Cache.enabled (cache (options this)) = true ->
    Cache.strategy (cache (options this)) = merge ->
    let union := persisted w ∪ observed in
    let done := (Ok union,
                 {| cacheFile := Some union;
                    trace := trace w ++ [CacheRead; CacheWrite union] |}) in
    mergeWithCache this observed w = done
    /\ mergeWithCacheSync this observed w = done
    /\ mergeWithCache this ∅ w =
         (Ok (persisted w),
          {| cacheFile := Some (persisted w);
             trace := trace w ++ [CacheRead; CacheWrite (persisted w)] |})
    /\ persisted w ⊆ persisted (mergeWithCache this observed w).2
    /\ (forall observations : list (gset string),
          persisted (reconcileRuns this observations w) = persisted w ∪ ⋃ observations
          /\ persisted w ⊆ persisted (reconcileRuns this observations w)).
Proof.
  intros this observed w Hen Hst union done.
  assert (Hrun : forall o,
             mergeWithCache this o w =
             (Ok (persisted w ∪ o),
              {| cacheFile := Some (persisted w ∪ o);
                 trace := trace w ++ [CacheRead; CacheWrite (persisted w ∪ o)] |})).
  { intros o. unfold mergeWithCache. rewrite Hen, Hst. cbn [negb].
    rewrite (bind_Ok _ _ _ _ _ (CacheStore_read_run _ w)).
    rewrite (bind_Ok _ _ _ _ _ (CacheStore_write_run _ _ _)).
    unfold ret. cbn [cacheFile trace]. rewrite addAll_union, <- app_assoc.
    reflexivity. }
  split; [apply Hrun|]. split; [apply Hrun|]. split; [|split].
  - rewrite Hrun. rewrite (right_id_L ∅ (∪)). reflexivity.
  - rewrite Hrun. unfold persisted at 2. cbn. apply union_subseteq_l.
  - intros observations. rewrite (reconcileRuns_persisted this Hen Hst).
    split; [reflexivity|]. apply union_subseteq_l.
Qed.

(** A store holding one class, a run observing another: both are kept;
    a second run observing nothing keeps both. *)
Lemma merge_reconciliation_witness :
  let this := Sample.patcher 3 true merge None in
  let w := Sample.cachedWorld {[ "old" ]} in
  mergeWithCache this {[ "flex" ]} w =
    (Ok ({[ "old" ]} ∪ {[ "flex" ]}),
     {| cacheFile := Some ({[ "old" ]} ∪ {[ "flex" ]});
        trace := [CacheRead; CacheWrite ({[ "old" ]} ∪ {[ "flex" ]})] |})
  /\ persisted (reconcileRuns this [ {[ "flex" ]}; ∅ ] w)
     = {[ "old" ]} ∪ ⋃ [ {[ "flex" ]}; ∅ ].
Proof.
  intros this w.
  destruct (merge_reconciliation this {[ "flex" ]} w eq_refl eq_refl)
    as (Hrun & _ & _ & _ & Hruns).
  split.
  - exact Hrun.
  - apply Hruns.
Defined.

(** C7: with the cache disabled the reconciliation returns the observed
    set as it is and leaves the world as it was: the store is neither read
    nor written and the cache file keeps its content. *)
Theorem disabled_cache_bypass :
  forall (this : TailwindcssPatcher) (observed : gset string) (w : World),
    Cache.enabled (cache (options this)) = false ->
    mergeWithCache this observed w = (Ok observed, w)
    /\ mergeWithCacheSync this observed w = (Ok observed, w).
Proof.
  intros this observed w Hen.
  unfold mergeWithCacheSync, mergeWithCache. rewrite Hen. split; reflexivity.
Qed.

Lemma disabled_cache_bypass_witness :
  let this := Sample.patcher 3 false merge None in
  let w := {| cacheFile := Some {[ "old" ]}; trace := [CacheWrite {[ "old" ]}] |} in
  mergeWithCache this {[ "flex" ]} w = (Ok {[ "flex" ]}, w)
  /\ mergeWithCacheSync this {[ "flex" ]} w = (Ok {[ "flex" ]}, w).
Proof.
  intros this w. apply (disabled_cache_bypass this {[ "flex" ]} w). reflexivity.
Defined.

(** ** Operations of the patcher *)

Lemma builds_app (a b : list Event) : builds (a ++ b) = (builds a + builds b)%nat.
Proof. unfold builds. rewrite List.filter_app, length_app. reflexivity. Qed.

Lemma mergeWithCache_effects (this : TailwindcssPatcher) (set : gset string) (w : World) :
  exists r cf evs,
    mergeWithCache this set w = (r, {| cacheFile := cf; trace := trace w ++ evs |})
    /\ builds evs = 0%nat.
Proof.
  unfold mergeWithCache.
  destruct (Cache.enabled (cache (options this))); cbn [negb].
  - rewrite (bind_Ok _ _ _ _ _ (CacheStore_read_run _ w)).
    destruct (Cache.strategy (cache (options this))).
    + rewrite (bind_Ok _ _ _ _ _ (CacheStore_write_run _ _ _)).
      unfold ret. cbn [cacheFile trace]. rewrite <- app_assoc.
      eexists _, _, _. split; [reflexivity|reflexivity].
    + destruct (0 <? size set)%nat.
      * rewrite (bind_Ok _ _ _ _ _ (CacheStore_write_run _ _ _)).
        unfold ret. cbn [cacheFile trace]. rewrite <- app_assoc.
        eexists _, _, _. split; [reflexivity|reflexivity].
      * unfold ret. eexists _, _, _. split; [reflexivity|reflexivity].
  - unfold ret. exists (Ok set), (cacheFile w), []. rewrite app_nil_r.
    destruct w. split; reflexivity.
Qed.

Section PatcherProperties.

Variable buildFailure : World -> ExecutionOptions -> Z -> option string.
Variable Contexts : Type.
Variable loadRuntimeContexts : World -> PackageInfo -> Z -> string -> Contexts.
Variable collectClassesFromContexts : Contexts -> (string -> bool) -> gset string.
Variable collectClassesFromTailwindV4 :
  World -> NormalizedTailwindcssPatchOptions -> Result (gset string).
Variable path_resolve : string -> string.
Variable path_dirname : string -> string.
Variable process_cwd : string.

Local Abbreviation collectClassSet' :=
  (collectClassSet loadRuntimeContexts collectClassesFromContexts
                   collectClassesFromTailwindV4).
Local Abbreviation collectClassSetSync' :=
  (collectClassSetSync loadRuntimeContexts collectClassesFromContexts).
Local Abbreviation getClassSet' :=
  (getClassSet buildFailure loadRuntimeContexts collectClassesFromContexts
               collectClassesFromTailwindV4).
Local Abbreviation getClassSetSync' :=
  (getClassSetSync loadRuntimeContexts collectClassesFromContexts).
Local Abbreviation extract' :=
  (extract buildFailure loadRuntimeContexts collectClassesFromContexts
           collectClassesFromTailwindV4 path_resolve path_dirname process_cwd).

Lemma collectClassSet_effects (this : TailwindcssPatcher) (w : World) :
  exists r evs,
    collectClassSet' this w = (r, {| cacheFile := cacheFile w; trace := trace w ++ evs |})
    /\ builds evs = 0%nat.
Proof.
  unfold collectClassSet. destruct (majorVersion this =? 4).
  - unfold bind, emit. eexists _, _. split; [reflexivity|reflexivity].
  - unfold getContexts, bind, emit, ret. eexists _, _. split; [reflexivity|reflexivity].
Qed.

(** C5: on a patcher whose major version is 4, [getClassSetSync] throws
    the error that names synchronous collection as unsupported for v4;
    the world is left as it was, so no contexts are loaded, nothing else
    is tried and the cache is neither read nor written. *)
Theorem getClassSetSync_v4_unsupported :
  forall (this : TailwindcssPatcher) (w : World),
    majorVersion this = 4 ->
    let unsupported :=
      "getClassSetSync is not supported for Tailwind CSS v4 projects. Use getClassSet instead." in
    collectClassSetSync' this w = (Throw unsupported, w)
    /\ getClassSetSync' this w = (Throw unsupported, w).
Proof.
  intros this w H4 unsupported.
  assert (Hc : collectClassSetSync' this w = (Throw unsupported, w)).
  { unfold collectClassSetSync. rewrite H4. reflexivity. }
  split; [exact Hc|].
  unfold getClassSetSync. apply (bind_Throw _ _ _ _ _ Hc).
Qed.

Lemma runTailwindBuildIfNeeded_legacy (this : TailwindcssPatcher) (w : World) :
  majorVersion this = 2 \/ majorVersion this = 3 ->
  let exec := resolveTailwindExecutionOptions (options this) (majorVersion this) in
  exists r,
    runTailwindBuildIfNeeded buildFailure this w =
    (r, {| cacheFile := cacheFile w;
           trace := trace w ++ [RunTailwindBuild (exec_cwd exec) (exec_config exec)
                                  (majorVersion this) (exec_postcssPlugin exec)] |}).
Proof.
  intros Hv exec. unfold runTailwindBuildIfNeeded.
  assert ((majorVersion this =? 2) || (majorVersion this =? 3) = true) as ->.
  { rewrite orb_true_iff. lia. }
  unfold runTailwindBuild. fold exec.
  destruct (buildFailure w exec (majorVersion this)); eexists; reflexivity.
Qed.

Lemma runTailwindBuildIfNeeded_other (this : TailwindcssPatcher) (w : World) :
  majorVersion this <> 2 -> majorVersion this <> 3 ->
  runTailwindBuildIfNeeded buildFailure this w = (Ok tt, w).
Proof.
  intros H2 H3. unfold runTailwindBuildIfNeeded.
  assert ((majorVersion this =? 2) || (majorVersion this =? 3) = false) as ->.
  { rewrite orb_false_iff. lia. }
  reflexivity.
Qed.

(** What [getClassSet] does after the build step. *)
Lemma collect_and_merge_effects (this : TailwindcssPatcher) (w : World) :
  exists r cf evs,
    (let* set := collectClassSet' this in mergeWithCache this set) w
    = (r, {| cacheFile := cf; trace := trace w ++ evs |})
    /\ builds evs = 0%nat.
Proof.
  destruct (collectClassSet_effects this w) as (r & evs & Hc & Hb).
  destruct r as [set|m].
  - rewrite (bind_Ok _ _ _ _ _ Hc).
    destruct (mergeWithCache_effects this set
                {| cacheFile := cacheFile w; trace := trace w ++ evs |})
      as (r' & cf & evs' & Hm & Hb').
    rewrite Hm. cbn [trace]. rewrite <- app_assoc.
    eexists _, _, _. split; [reflexivity|]. rewrite builds_app, Hb, Hb'. reflexivity.
  - rewrite (bind_Throw _ _ _ _ _ Hc). eexists _, _, _. split; [reflexivity|exact Hb].
Qed.

(** C3, as the code has it: on a v2 or v3 patcher every call of
    [getClassSet] invokes the build once, first, with the resolved
    execution options, whatever ran before; so two calls in a row invoke
    it twice.  On any other major version the build is not invoked. *)
Theorem getClassSet_builds_on_every_call :
  forall (this : TailwindcssPatcher) (w : World),
    (majorVersion this = 2 \/ majorVersion this = 3 ->
       let exec := resolveTailwindExecutionOptions (options this) (majorVersion this) in
       (exists rest,
          trace (getClassSet' this w).2 =
            trace w ++ RunTailwindBuild (exec_cwd exec) (exec_config exec)
                         (majorVersion this) (exec_postcssPlugin exec) :: rest
          /\ builds rest = 0%nat)
       /\ builds (trace (getClassSet' this w).2) = S (builds (trace w))
       /\ builds (trace (getClassSet' this (getClassSet' this w).2).2)
          = S (S (builds (trace w))))
    /\ (majorVersion this <> 2 -> majorVersion this <> 3 ->
        builds (trace (getClassSet' this w).2) = builds (trace w)).
Proof.
  intros this w. split.
  - intros Hv exec.
    assert (Hone : forall w0, exists rest,
               trace (getClassSet' this w0).2 =
                 trace w0 ++ RunTailwindBuild (exec_cwd exec) (exec_config exec)
                              (majorVersion this) (exec_postcssPlugin exec) :: rest
               /\ builds rest = 0%nat).
    { intros w0. unfold getClassSet.
      destruct (runTailwindBuildIfNeeded_legacy this w0 Hv) as (r & Hb). fold exec in Hb.
      destruct r as [[]|m].
      - rewrite (bind_Ok _ _ _ _ _ Hb).
        match goal with
        | |- context [bind _ _ ?w1] =>
            destruct (collect_and_merge_effects this w1) as (r' & cf & evs & Hm & Hn)
        end.
        rewrite Hm. cbn [snd trace]. rewrite <- app_assoc. exists evs. split; [reflexivity|exact Hn].
      - rewrite (bind_Throw _ _ _ _ _ Hb). cbn [snd trace]. exists []. split; reflexivity. }
    assert (Hcount : forall w0,
               builds (trace (getClassSet' this w0).2) = S (builds (trace w0))).
    { intros w0. destruct (Hone w0) as (rest & -> & Hn).
      rewrite builds_app. change (?e :: rest) with ([e] ++ rest).
      rewrite builds_app, Hn. cbn. lia. }
    split; [apply Hone|]. split; [apply Hcount|]. rewrite !Hcount. reflexivity.
  - intros H2 H3. unfold getClassSet.
    rewrite (bind_Ok _ _ _ _ _ (runTailwindBuildIfNeeded_other this w H2 H3)).
    destruct (collect_and_merge_effects this w) as (r' & cf & evs & Hm & Hn).
    rewrite Hm. cbn [snd trace]. rewrite builds_app, Hn. lia.
Qed.

(** C9: when the write flag resolves to true and no output file is set,
    [extract] is [getClassSet] followed by nothing: the result carries the
    class list and the class set and no [filename], and the world is the
    one [getClassSet] left.  In every call that returns, [filename] names
    the one file written after the collection, and is absent exactly when
    none was written. *)
Theorem extract_filename_iff_written :
  forall (this : TailwindcssPatcher) (opts : option ExtractOptions) (w : World),
    (resolvedWriteFlag this opts = true ->
     truthy_string (Output.file (output (options this))) = false ->
     extract' this opts w =
       match getClassSet' this w with
       | (Ok set, w1) =>
           (Ok {| classList := elements set; classSet := set; filename := None |}, w1)
       | (Throw m, w1) => (Throw m, w1)
       end)
    /\ (forall (r : ExtractResult) (w2 : World),
          extract' this opts w = (Ok r, w2) ->
          exists set w1 evs,
            getClassSet' this w = (Ok set, w1)
            /\ classSet r = set /\ classList r = elements set
            /\ cacheFile w2 = cacheFile w1
            /\ trace w2 = trace w1 ++ evs
            /\ filesWritten evs = match filename r with Some t => [t] | None => [] end
            /\ (filename r = None <-> evs = [])).
Proof.
  intros this opts w.
  assert (Hflag : nullish (match opts with Some o => write o | None => None end)
                          (Output.enabled (output (options this)))
                  = resolvedWriteFlag this opts).
  { destruct opts as [[[flag|]]|]; reflexivity. }
  split.
  - intros Hw Hf. unfold extract. rewrite Hflag, Hw, Hf. cbn [negb orb].
    unfold bind. destruct (getClassSet' this w) as [[set|m] w1]; reflexivity.
  - intros r w2. unfold extract. rewrite Hflag.
    unfold bind at 1. destruct (getClassSet' this w) as [[set|m] w1]; [|discriminate].
    destruct (negb (resolvedWriteFlag this opts)
              || negb (truthy_string (Output.file (output (options this))))).
    + unfold ret. intros [= <- <-]. exists set, w1, [].
      cbn. rewrite app_nil_r. repeat split; reflexivity.
    + destruct (Output.format (output (options this)));
        unfold bind, fs_ensureDir, fs_writeJSON, fs_writeFile, logger_success, emit, ret;
        cbn [cacheFile trace]; intros [= <- <-];
        eexists set, w1, _; cbn [classSet classList filename cacheFile trace];
        rewrite <- !app_assoc; cbn [app];
        (repeat split; try reflexivity; discriminate).
Qed.

End PatcherProperties.

Lemma getClassSetSync_v4_unsupported_witness :
  let this := Sample.patcher 4 true merge None in
  let w := Sample.cachedWorld {[ "old" ]} in
  getClassSetSync Sample.loadRuntimeContexts Sample.collectClassesFromContexts this w =
    (Throw "getClassSetSync is not supported for Tailwind CSS v4 projects. Use getClassSet instead.",
     w).
Proof.
  intros this w.
  apply (getClassSetSync_v4_unsupported _ Sample.loadRuntimeContexts
           Sample.collectClassesFromContexts this w).
  reflexivity.
Defined.

(** C3, as stated, fails: on the sample v3 project two successful calls of
    [getClassSet] on one patcher, with nothing changed in between, run the
    build twice. *)
Lemma second_getClassSet_builds_again :
  let this := Sample.patcher 3 false merge None in
  let getClassSet :=
    getClassSet Sample.buildFailure Sample.loadRuntimeContexts
                Sample.collectClassesFromContexts Sample.collectClassesFromTailwindV4 in
  let first := getClassSet this Sample.emptyWorld in
  let second := getClassSet this first.2 in
  first.1 = second.1
  /\ builds (trace first.2) = 1%nat
  /\ builds (trace second.2) = 2%nat
  /\ trace second.2 =
       [RunTailwindBuild "/project/app" (Some "tailwind.v3.config.js") 3 None;
        LoadRuntimeContexts 3 "contextRef";
        RunTailwindBuild "/project/app" (Some "tailwind.v3.config.js") 3 None;
        LoadRuntimeContexts 3 "contextRef"].
Proof.
  cbv zeta. repeat split.
Qed.

Lemma getClassSet_builds_on_every_call_witness :
  let this := Sample.patcher 3 true merge None in
  let getClassSet :=
    getClassSet Sample.buildFailure Sample.loadRuntimeContexts
                Sample.collectClassesFromContexts Sample.collectClassesFromTailwindV4 in
  builds (trace (getClassSet this (getClassSet this Sample.emptyWorld).2).2) = 2%nat.
Proof.
  intros this getClassSet'.
  destruct (getClassSet_builds_on_every_call Sample.buildFailure _ Sample.loadRuntimeContexts
              Sample.collectClassesFromContexts Sample.collectClassesFromTailwindV4
              this Sample.emptyWorld) as [Hlegacy _].
  destruct Hlegacy as (_ & _ & Htwice).
  - right. reflexivity.
  - exact Htwice.
Defined.

Lemma extract_filename_iff_written_witness :
  let this := Sample.patcher 4 false merge None in
  extract Sample.buildFailure Sample.loadRuntimeContexts Sample.collectClassesFromContexts
          Sample.collectClassesFromTailwindV4 Sample.path_resolve Sample.path_dirname
          Sample.process_cwd this (Some (mkExtractOptions (Some true))) Sample.emptyWorld
  = (Ok {| classList := elements ({[ "grid"; "gap-2" ]} : gset string);
           classSet := {[ "grid"; "gap-2" ]};
           filename := None |},
     {| cacheFile := None; trace := [CollectClassesFromTailwindV4] |}).
Proof.
  intros this.
  destruct (extract_filename_iff_written Sample.buildFailure _ Sample.loadRuntimeContexts
              Sample.collectClassesFromContexts Sample.collectClassesFromTailwindV4
              Sample.path_resolve Sample.path_dirname Sample.process_cwd
              this (Some (mkExtractOptions (Some true))) Sample.emptyWorld) as [Hnone _].
  rewrite Hnone; reflexivity.
Defined.

(** ** Construction *)

(** C6: construction is a pure, immediate computation.  When the package
    is not resolved it throws and yields no patcher; when it is resolved
    the patcher holds the normalized options, the resolved package, a
    major version among 2, 3, 4 resolved from the package version and the
    hint, and a cache store over the cache options. *)
Theorem constructor_fails_fast :
  forall (coerce : string -> option SemVer) (Legacy Current : Type)
         (fromLegacyOptions : Legacy -> Current)
         (normalizeOptions : Current -> NormalizedTailwindcssPatchOptions)
         (getPackageInfoSync : string -> option (list string) -> option PackageInfo)
         (init : TailwindcssPatcherInitOptions Legacy Current),
    let o := normalizedInit fromLegacyOptions normalizeOptions init in
    let located :=
      getPackageInfoSync (Tailwind.packageName (tailwind o)) (Tailwind.resolve (tailwind o)) in
    let created :=
      new_TailwindcssPatcher coerce fromLegacyOptions normalizeOptions getPackageInfoSync init in
    (located = None ->
       created = Throw ("Unable to locate Tailwind CSS package " +:+ DQUOTE
                        +:+ Tailwind.packageName (tailwind o) +:+ DQUOTE +:+ ".")
       /\ forall this, created <> Ok this)
    /\ (forall info, located = Some info ->
          exists this,
            created = Ok this
            /\ options this = o
            /\ packageInfo this = info
            /\ majorVersion this =
                 resolveMajorVersion coerce (version info) (Tailwind.versionHint (tailwind o))
            /\ (majorVersion this = 2 \/ majorVersion this = 3 \/ majorVersion this = 4)
            /\ cacheStore this = mkCacheStore (cache o)).
Proof.
  intros coerce Legacy Current fromLegacyOptions normalizeOptions getPackageInfoSync init
         o located created.
  assert (Ho : normalizeOptions (match init with
                                 | LegacyShape l => fromLegacyOptions l
                                 | CurrentShape c => c
                                 end) = o).
  { subst o. destruct init; reflexivity. }
  subst created. unfold new_TailwindcssPatcher. rewrite Ho. fold located.
  split.
  - intros ->. split; [reflexivity|]. intros this. discriminate.
  - intros info ->. eexists. split; [reflexivity|]. cbn.
    repeat split. apply resolveMajorVersion_range.
Qed.

Lemma constructor_fails_fast_witness :
  let create name :=
    new_TailwindcssPatcher coerce_dotted Sample.fromLegacyOptions Sample.normalizeOptions
      Sample.getPackageInfoSync
      (CurrentShape (Sample.normalized name None true merge None)) in
  create "tailwindcs" =
    Throw ("Unable to locate Tailwind CSS package " +:+ DQUOTE +:+ "tailwindcs" +:+ DQUOTE +:+ ".")
  /\ exists this, create "tailwindcss" = Ok this /\ majorVersion this = 3.
Proof.
  intros create. split.
  - apply (constructor_fails_fast coerce_dotted unit _ Sample.fromLegacyOptions
             Sample.normalizeOptions Sample.getPackageInfoSync
             (CurrentShape (Sample.normalized "tailwindcs" None true merge None))).
    reflexivity.
  - destruct (constructor_fails_fast coerce_dotted unit _ Sample.fromLegacyOptions
                Sample.normalizeOptions Sample.getPackageInfoSync
                (CurrentShape (Sample.normalized "tailwindcss" None true merge None)))
      as [_ Hsome].
    destruct (Hsome _ eq_refl) as (this & Hc & _ & _ & Hv & _).
    exists this. split; [exact Hc|]. rewrite Hv. reflexivity.
Defined.

(** ** Token collection *)

(** C10: called without a [cwd] and without [sources], [collectContentTokens]
    scans from the project root with the configured v4 sources, the empty
    list when there are none; with no v4 sources no file is scanned and the
    report is empty, on a patcher of any major version. *)
Theorem collectContentTokens_defaults :
  forall (projectFiles : string -> list string)
         (sourceMatches : string -> SourceEntry -> string -> bool)
         (extractFile : string -> string + list TokenLocation)
         (this : TailwindcssPatcher) (w : World),
    let collect := collectContentTokens projectFiles sourceMatches extractFile this in
    let scan := extractProjectCandidatesWithPositions projectFiles sourceMatches extractFile in
    collect None w = scan (projectRoot (options this)) (configuredSources this) w
    /\ collect (Some (mkContentTokenOptions None None)) w
       = scan (projectRoot (options this)) (configuredSources this) w
    /\ (Tailwind.v4 (tailwind (options this)) = None
        \/ (exists v4, Tailwind.v4 (tailwind (options this)) = Some v4
                       /\ V4Config.sources v4 = None) ->
        configuredSources this = []
        /\ scannedFiles projectFiles sourceMatches (projectRoot (options this)) [] = []
        /\ collect None w =
             (Ok {| entries := []; filesScanned := 0; skippedFiles := [] |},
              {| cacheFile := cacheFile w;
                 trace := trace w ++ [ExtractProjectCandidates (projectRoot (options this)) []] |})).
Proof.
  intros projectFiles sourceMatches extractFile this w collect scan.
  assert (Hsrc : nullish (nullish_opt None
                            (match Tailwind.v4 (tailwind (options this)) with
                             | Some v4 => V4Config.sources v4
                             | None => None
                             end)) []
                 = configuredSources this).
  { unfold configuredSources.
    destruct (Tailwind.v4 (tailwind (options this))) as [[css [src|]]|]; reflexivity. }
  assert (Hnone : collect None w
                  = scan (projectRoot (options this)) (configuredSources this) w).
  { subst collect scan. unfold collectContentTokens. cbn [nullish]. rewrite Hsrc.
    reflexivity. }
  assert (Hfiles : scannedFiles projectFiles sourceMatches (projectRoot (options this)) [] = []).
  { unfold scannedFiles. cbn [existsb].
    induction (projectFiles (projectRoot (options this))) as [|f fs IH];
      [reflexivity|exact IH]. }
  split; [exact Hnone|]. split.
  - subst collect scan. unfold collectContentTokens. cbn [nullish tokens_cwd tokens_sources].
    rewrite Hsrc. reflexivity.
  - intros Hno.
    assert (Hcfg : configuredSources this = []).
    { unfold configuredSources. destruct Hno as [-> | (v4 & -> & Hs)]; [reflexivity|].
      destruct v4 as [css src]. cbn in Hs. rewrite Hs. reflexivity. }
    split; [exact Hcfg|]. split; [exact Hfiles|].
    rewrite Hnone, Hcfg. subst scan. unfold extractProjectCandidatesWithPositions.
    unfold bind, emit. rewrite Hfiles. reflexivity.
Qed.

Lemma collectContentTokens_defaults_witness :
  collectContentTokens Sample.projectFiles Sample.sourceMatches Sample.extractFile
    (Sample.patcher 3 true merge None) None Sample.emptyWorld
  = (Ok {| entries := []; filesScanned := 0; skippedFiles := [] |},
     {| cacheFile := None; trace := [ExtractProjectCandidates "/project" []] |}).
Proof.
  destruct (collectContentTokens_defaults Sample.projectFiles Sample.sourceMatches
              Sample.extractFile (Sample.patcher 3 true merge None)
              Sample.emptyWorld) as (_ & _ & Hempty).
  destruct Hempty as (_ & _ & Hreport).
  - left. reflexivity.
  - exact Hreport.
Defined.

(** With explicit sources the same project is scanned: one file yields a
    token, the other is skipped with its reason. *)
Example collectContentTokens_explicit_sources :
  (collectContentTokens Sample.projectFiles Sample.sourceMatches Sample.extractFile
     (Sample.patcher 4 true merge None)
     (Some (mkContentTokenOptions (Some "/elsewhere")
                                  (Some [mkSourceEntry "/elsewhere" "**/*.html" false])))
     Sample.emptyWorld).1
  = Ok {| entries := [mkTokenLocation "/project/src/a.html" "src/a.html" 1 13 12 16 "flex"];
          filesScanned := 2;
          skippedFiles := [mkSkippedFile "src/b.html" "unreadable"] |}.
Proof. reflexivity. Qed.

(** With an output file and the write flag on, [extract] writes the file
    after the collection and reports its name. *)
Example extract_writes_output_file :
  let run :=
    extract Sample.buildFailure Sample.loadRuntimeContexts Sample.collectClassesFromContexts
            Sample.collectClassesFromTailwindV4 Sample.path_resolve Sample.path_dirname
            Sample.process_cwd (Sample.patcher 4 false merge (Some "out/classes.json"))
            None Sample.emptyWorld in
  option_map filename (match run.1 with Ok r => Some r | Throw _ => None end)
    = Some (Some "/project/out/classes.json")
  /\ filesWritten (trace run.2) = ["/project/out/classes.json"]
  /\ last (trace run.2)
     = Some (LoggerSuccess "Tailwind CSS class list saved to ./out/classes.json").
Proof. cbv zeta. repeat split. Qed.

(** * Further properties of the patcher *)

(** ** Reconciliation, all configurations *)

(** The outcome of a reconciliation, by configuration. *)
Lemma mergeWithCache_run (this : TailwindcssPatcher) (observed : gset string) (w : World) :
  mergeWithCache this observed w =
  if Cache.enabled (cache (options this))
  then
    match Cache.strategy (cache (options this)) with
    | merge =>
        (Ok (persisted w ∪ observed),
         {| cacheFile := Some (persisted w ∪ observed);
            trace := trace w ++ [CacheRead; CacheWrite (persisted w ∪ observed)] |})
    | overwrite =>
        if decide (observed = ∅)
        then (Ok (persisted w),
              {| cacheFile := cacheFile w; trace := trace w ++ [CacheRead] |})
        else (Ok observed,
              {| cacheFile := Some observed;
                 trace := trace w ++ [CacheRead; CacheWrite observed] |})
    end
  else (Ok observed, w).
Proof.
  unfold mergeWithCache.
  destruct (Cache.enabled (cache (options this))); cbn [negb]; [|reflexivity].
  rewrite (bind_Ok _ _ _ _ _ (CacheStore_read_run _ w)).
  destruct (Cache.strategy (cache (options this))).
  - rewrite (bind_Ok _ _ _ _ _ (CacheStore_write_run _ _ _)).
    unfold ret. cbn [cacheFile trace]. rewrite addAll_union, <- app_assoc. reflexivity.
  - destruct (decide (observed = ∅)) as [->|Hne].
    + rewrite size_empty. reflexivity.
    + rewrite (size_positive_test _ Hne).
      rewrite (bind_Ok _ _ _ _ _ (CacheStore_write_run _ _ _)).
      unfold ret. cbn [cacheFile trace]. rewrite <- app_assoc. reflexivity.
Qed.

(** X1: with the cache enabled, under either strategy, the reconciliation
    returns a set that contains every observed class, and the store then
    holds exactly the returned set: a later read gives what the caller
    got. *)
Theorem reconciliation_returns_what_is_stored :
  forall (this : TailwindcssPatcher) (observed : gset string) (w : World),
    Cache.enabled (cache (options this)) = true ->
    exists returned w',
      mergeWithCache this observed w = (Ok returned, w')
      /\ mergeWithCacheSync this observed w = (Ok returned, w')
      /\ observed ⊆ returned
      /\ persisted w' = returned
      /\ (CacheStore_read (cacheStore this) w').1 = Ok returned.
Proof.
  intros this observed w Hen.
  assert (Hgoal : exists returned w',
             mergeWithCache this observed w = (Ok returned, w')
             /\ observed ⊆ returned /\ persisted w' = returned).
  { rewrite mergeWithCache_run, Hen.
    destruct (Cache.strategy (cache (options this))).
    - eexists _, _. split; [reflexivity|]. split; [apply union_subseteq_r|reflexivity].
    - destruct (decide (observed = ∅)) as [->|Hne].
      + eexists _, _. split; [reflexivity|]. split; [apply empty_subseteq|reflexivity].
      + eexists _, _. split; [reflexivity|]. split; reflexivity. }
  destruct Hgoal as (returned & w' & Hrun & Hsub & Hp).
  exists returned, w'. repeat split; try assumption.
  rewrite CacheStore_read_run. cbn [fst]. rewrite Hp. reflexivity.
Qed.

Lemma reconciliation_returns_what_is_stored_witness :
  exists returned w',
    mergeWithCache (Sample.patcher 3 true overwrite None) ∅ (Sample.cachedWorld {[ "old" ]})
    = (Ok returned, w')
    /\ persisted w' = returned.
Proof.
  destruct (reconciliation_returns_what_is_stored
              (Sample.patcher 3 true overwrite None) ∅ (Sample.cachedWorld {[ "old" ]})
              eq_refl) as (returned & w' & Hrun & _ & _ & Hp & _).
  exists returned, w'. split; assumption.
Defined.

(** X2: reconciling the same observed set a second time changes nothing
    but the trace: the returned set and the cache file are those of the
    first reconciliation, in every configuration. *)
Theorem reconciliation_idempotent :
  forall (this : TailwindcssPatcher) (observed : gset string) (w : World),
    let first := mergeWithCache this observed w in
    let second := mergeWithCache this observed first.2 in
    second.1 = first.1 /\ cacheFile second.2 = cacheFile first.2.
Proof.
  intros this observed w first second. subst second first.
  rewrite !mergeWithCache_run.
  destruct (Cache.enabled (cache (options this))); [|split; reflexivity].
  destruct (Cache.strategy (cache (options this))).
  - cbn [fst snd cacheFile].
    change (persisted {| cacheFile := Some (persisted w ∪ observed);
                         trace := trace w ++ [CacheRead; CacheWrite (persisted w ∪ observed)] |})
      with (persisted w ∪ observed).
    assert (persisted w ∪ observed ∪ observed = persisted w ∪ observed) as ->.
    { rewrite <- (assoc_L (∪)). rewrite (idemp_L (∪)). reflexivity. }
    split; reflexivity.
  - destruct (decide (observed = ∅)) as [->|Hne]; cbn [fst snd cacheFile].
    + split; reflexivity.
    + split; reflexivity.
Qed.

(** ** Collection paths *)

Section CollectionPaths.

Variable buildFailure : World -> ExecutionOptions -> Z -> option string.
Variable Contexts : Type.
Variable loadRuntimeContexts : World -> PackageInfo -> Z -> string -> Contexts.
Variable collectClassesFromContexts : Contexts -> (string -> bool) -> gset string.
Variable collectClassesFromTailwindV4 :
  World -> NormalizedTailwindcssPatchOptions -> Result (gset string).
Variable path_resolve : string -> string.
Variable path_dirname : string -> string.
Variable process_cwd : string.

Local Abbreviation getClassSet' :=
  (getClassSet buildFailure loadRuntimeContexts collectClassesFromContexts
               collectClassesFromTailwindV4).
Local Abbreviation getClassSetSync' :=
  (getClassSetSync loadRuntimeContexts collectClassesFromContexts).
Local Abbreviation extract' :=
  (extract buildFailure loadRuntimeContexts collectClassesFromContexts
           collectClassesFromTailwindV4 path_resolve path_dirname process_cwd).

Lemma mergeWithCache_cache_events (this : TailwindcssPatcher) (set : gset string) (w : World) :
  exists r cf evs,
    mergeWithCache this set w = (Ok r, {| cacheFile := cf; trace := trace w ++ evs |})
    /\ Forall (fun e => is_cache_access e = true) evs.
Proof.
  rewrite mergeWithCache_run.
  destruct (Cache.enabled (cache (options this))).
  - destruct (Cache.strategy (cache (options this))).
    + eexists _, _, _. split; [reflexivity|]. repeat constructor.
    + destruct (decide (set = ∅)); eexists _, _, _; (split; [reflexivity|]);
        repeat constructor.
  - exists set, (cacheFile w), []. rewrite app_nil_r. destruct w. split; [reflexivity|constructor].
Qed.

(** X3: on a v2 or v3 patcher, when the build rejects, [getClassSet] and
    [extract] reject with the build's message right after the build was
    invoked: no runtime context is loaded, the cache is neither read nor
    written and no output is produced. *)
Theorem failed_build_aborts :
  forall (this : TailwindcssPatcher) (opts : option ExtractOptions) (w : World)
         (message : string),
    majorVersion this = 2 \/ majorVersion this = 3 ->
    let exec := resolveTailwindExecutionOptions (options this) (majorVersion this) in
    buildFailure w exec (majorVersion this) = Some message ->
    let stopped :=
      {| cacheFile := cacheFile w;
         trace := trace w ++ [RunTailwindBuild (exec_cwd exec) (exec_config exec)
                                (majorVersion this) (exec_postcssPlugin exec)] |} in
    getClassSet' this w = (Throw message, stopped)
    /\ extract' this opts w = (Throw message, stopped).
Proof.
  intros this opts w message Hv exec Hfail stopped.
  assert (Hbuild : runTailwindBuildIfNeeded buildFailure this w = (Throw message, stopped)).
  { unfold runTailwindBuildIfNeeded.
    assert ((majorVersion this =? 2) || (majorVersion this =? 3) = true) as ->.
    { rewrite orb_true_iff. lia. }
    unfold runTailwindBuild. fold exec. rewrite Hfail. reflexivity. }
  assert (Hget : getClassSet' this w = (Throw message, stopped)).
  { unfold getClassSet. apply (bind_Throw _ _ _ _ _ Hbuild). }
  split; [exact Hget|].
  unfold extract. apply (bind_Throw _ _ _ _ _ Hget).
Qed.

(** X4: on a v4 patcher [getClassSet] runs the v4 collector once and
    then only touches the cache: it never builds and never loads runtime
    contexts; when the collector rejects, the rejection is passed on with
    the cache untouched. *)
Theorem getClassSet_v4_path :
  forall (this : TailwindcssPatcher) (w : World),
    majorVersion this = 4 ->
    let collecting :=
      {| cacheFile := cacheFile w; trace := trace w ++ [CollectClassesFromTailwindV4] |} in
    (exists evs,
       trace (getClassSet' this w).2 = trace collecting ++ evs
       /\ Forall (fun e => is_cache_access e = true) evs)
    /\ (forall message,
          collectClassesFromTailwindV4 collecting (options this) = Throw message ->
          getClassSet' this w = (Throw message, collecting))
    /\ (forall set,
          collectClassesFromTailwindV4 collecting (options this) = Ok set ->
          getClassSet' this w = mergeWithCache this set collecting).
Proof.
  intros this w H4 collecting.
  assert (Hbuild : runTailwindBuildIfNeeded buildFailure this w = (Ok tt, w)).
  { unfold runTailwindBuildIfNeeded. rewrite H4. reflexivity. }
  assert (Hcollect : collectClassSet loadRuntimeContexts collectClassesFromContexts
                       collectClassesFromTailwindV4 this w
                     = (collectClassesFromTailwindV4 collecting (options this), collecting)).
  { unfold collectClassSet. rewrite H4. reflexivity. }
  assert (Hthrow : forall message,
             collectClassesFromTailwindV4 collecting (options this) = Throw message ->
             getClassSet' this w = (Throw message, collecting)).
  { intros message Hm. unfold getClassSet. rewrite (bind_Ok _ _ _ _ _ Hbuild).
    rewrite Hm in Hcollect. apply (bind_Throw _ _ _ _ _ Hcollect). }
  assert (Hok : forall set,
             collectClassesFromTailwindV4 collecting (options this) = Ok set ->
             getClassSet' this w = mergeWithCache this set collecting).
  { intros set Hs. unfold getClassSet. rewrite (bind_Ok _ _ _ _ _ Hbuild).
    rewrite Hs in Hcollect. apply (bind_Ok _ _ _ _ _ Hcollect). }
  split; [|split; assumption].
  destruct (collectClassesFromTailwindV4 collecting (options this)) as [set|message] eqn:Hc.
  - rewrite (Hok set eq_refl).
    destruct (mergeWithCache_cache_events this set collecting) as (r & cf & evs & -> & Hevs).
    exists evs. split; [reflexivity|exact Hevs].
  - rewrite (Hthrow message eq_refl). exists []. split; [symmetry; apply app_nil_r|constructor].
Qed.

(** X5: [getClassSetSync] never invokes the build, on any patcher; on a
    v2 or v3 patcher whose build succeeds, [getClassSet] is the build
    followed by what [getClassSetSync] does. *)
Theorem getClassSetSync_skips_build :
  forall (this : TailwindcssPatcher) (w : World),
    builds (trace (getClassSetSync' this w).2) = builds (trace w)
    /\ (majorVersion this = 2 \/ majorVersion this = 3 ->
        let exec := resolveTailwindExecutionOptions (options this) (majorVersion this) in
        buildFailure w exec (majorVersion this) = None ->
        getClassSet' this w =
        getClassSetSync' this
          {| cacheFile := cacheFile w;
             trace := trace w ++ [RunTailwindBuild (exec_cwd exec) (exec_config exec)
                                    (majorVersion this) (exec_postcssPlugin exec)] |}).
Proof.
  intros this w. split.
  - unfold getClassSetSync, collectClassSetSync.
    destruct (majorVersion this =? 4).
    + reflexivity.
    + unfold getContexts.
      match goal with
      | |- context [bind (bind ?c ?k) ?k' w] =>
          assert (Hc : exists set, bind c k w =
                         (Ok set, {| cacheFile := cacheFile w;
                                     trace := trace w ++ [LoadRuntimeContexts (majorVersion this)
                                                            (refProperty (options this))] |}))
            by (eexists; reflexivity)
      end.
      destruct Hc as (set & Hc). rewrite (bind_Ok _ _ _ _ _ Hc).
      destruct (mergeWithCache_effects this set
                  {| cacheFile := cacheFile w;
                     trace := trace w ++ [LoadRuntimeContexts (majorVersion this)
                                            (refProperty (options this))] |})
        as (r & cf & evs & Hm & Hb).
      change (mergeWithCacheSync this set) with (mergeWithCache this set).
      rewrite Hm. cbn [snd trace]. rewrite !builds_app, Hb. cbn. lia.
  - intros Hv exec Hok.
    assert (Hbuild : runTailwindBuildIfNeeded buildFailure this w =
                     (Ok tt, {| cacheFile := cacheFile w;
                                trace := trace w ++ [RunTailwindBuild (exec_cwd exec)
                                                       (exec_config exec) (majorVersion this)
                                                       (exec_postcssPlugin exec)] |})).
    { unfold runTailwindBuildIfNeeded.
      assert ((majorVersion this =? 2) || (majorVersion this =? 3) = true) as ->.
      { rewrite orb_true_iff. lia. }
      unfold runTailwindBuild. fold exec. rewrite Hok. reflexivity. }
    unfold getClassSet. rewrite (bind_Ok _ _ _ _ _ Hbuild).
    unfold getClassSetSync, collectClassSet, collectClassSetSync.
    assert ((majorVersion this =? 4) = false) as -> by lia.
    reflexivity.
Qed.

End CollectionPaths.

Lemma failed_build_aborts_witness :
  let failing (w : World) (exec : ExecutionOptions) (v : Z) := Some "build failed" in
  extract failing Sample.loadRuntimeContexts Sample.collectClassesFromContexts
          Sample.collectClassesFromTailwindV4 Sample.path_resolve Sample.path_dirname
          Sample.process_cwd (Sample.patcher 3 true merge (Some "classes.json")) None
          (Sample.cachedWorld {[ "old" ]})
  = (Throw "build failed",
     {| cacheFile := Some {[ "old" ]};
        trace := [RunTailwindBuild "/project/app" (Some "tailwind.v3.config.js") 3 None] |}).
Proof.
  intros failing.
  apply (failed_build_aborts failing _ Sample.loadRuntimeContexts
           Sample.collectClassesFromContexts Sample.collectClassesFromTailwindV4
           Sample.path_resolve Sample.path_dirname Sample.process_cwd
           (Sample.patcher 3 true merge (Some "classes.json")) None
           (Sample.cachedWorld {[ "old" ]}) "build failed").
  - right. reflexivity.
  - reflexivity.
Defined.

Lemma getClassSet_v4_path_witness :
  let failing (w : World) (o : NormalizedTailwindcssPatchOptions) : Result (gset string) :=
    Throw "no css entry" in
  getClassSet Sample.buildFailure Sample.loadRuntimeContexts
              Sample.collectClassesFromContexts failing
              (Sample.patcher 4 true merge None) (Sample.cachedWorld {[ "old" ]})
  = (Throw "no css entry",
     {| cacheFile := Some {[ "old" ]}; trace := [CollectClassesFromTailwindV4] |}).
Proof.
  intros failing.
  destruct (getClassSet_v4_path Sample.buildFailure _ Sample.loadRuntimeContexts
              Sample.collectClassesFromContexts failing
              (Sample.patcher 4 true merge None) (Sample.cachedWorld {[ "old" ]}) eq_refl)
    as (_ & Hthrow & _).
  apply Hthrow. reflexivity.
Defined.

Lemma getClassSetSync_skips_build_witness :
  let this := Sample.patcher 2 true merge None in
  getClassSet Sample.buildFailure Sample.loadRuntimeContexts
              Sample.collectClassesFromContexts Sample.collectClassesFromTailwindV4
              this Sample.emptyWorld
  = getClassSetSync Sample.loadRuntimeContexts Sample.collectClassesFromContexts this
      {| cacheFile := None; trace := [RunTailwindBuild "/project/app" None 2 None] |}.
Proof.
  intros this.
  destruct (getClassSetSync_skips_build Sample.buildFailure _ Sample.loadRuntimeContexts
              Sample.collectClassesFromContexts Sample.collectClassesFromTailwindV4
              this Sample.emptyWorld) as [_ Hagree].
  apply Hagree.
  - left. reflexivity.
  - reflexivity.
Defined.

(** ** Version resolver, further *)

(** X6: a hint other than 2, 3 or 4 is ignored: the result is the one for
    no hint at all. *)
Theorem resolveMajorVersion_ignores_other_hints :
  forall (coerce : string -> option SemVer) (version : option string) (h : Z),
    h <> 2 -> h <> 3 -> h <> 4 ->
    resolveMajorVersion coerce version (Some h) = resolveMajorVersion coerce version None.
Proof.
  intros coerce version h H2 H3 H4. unfold resolveMajorVersion.
  rewrite (hint_test_false (Some h)); [reflexivity|].
  intros (h' & [= <-] & Hh). lia.
Qed.

Lemma resolveMajorVersion_ignores_other_hints_witness :
  resolveMajorVersion coerce_dotted (Some "2.2.19") (Some 5) = 2
  /\ resolveMajorVersion coerce_dotted (Some "2.2.19") (Some 0)
     = resolveMajorVersion coerce_dotted (Some "2.2.19") None.
Proof.
  split.
  - rewrite (resolveMajorVersion_ignores_other_hints coerce_dotted (Some "2.2.19") 5);
      [reflexivity|lia..].
  - apply (resolveMajorVersion_ignores_other_hints coerce_dotted (Some "2.2.19") 0); lia.
Defined.

(** X7: a resolved major version is a fixed point: given back as the
    hint, it is returned whatever the installed version string. *)
Theorem resolveMajorVersion_stable :
  forall (coerce : string -> option SemVer) (version version' : option string)
         (hint : option Z),
    resolveMajorVersion coerce version'
      (Some (resolveMajorVersion coerce version hint))
    = resolveMajorVersion coerce version hint.
Proof.
  intros coerce version version' hint.
  pose proof (resolveMajorVersion_range coerce version hint) as Hr. cbv zeta in Hr.
  unfold resolveMajorVersion at 1.
  rewrite hint_test_true; [reflexivity|].
  eexists. split; [reflexivity|exact Hr].
Qed.

(** ** Output of [extract] *)

Lemma string_app_assoc (a b c : string) : (a +:+ b) +:+ c = a +:+ (b +:+ c).
Proof.
  induction a as [|x a IH]; [reflexivity|].
  change (String x ((a +:+ b) +:+ c) = String x (a +:+ (b +:+ c))).
  rewrite IH. reflexivity.
Qed.

Lemma join_LF_terminated (l : list string) :
  join LF l +:+ LF = match l with [] => LF | _ => terminated l end.
Proof.
  destruct l as [|x rest]; [reflexivity|].
  revert x. induction rest as [|y rest IH]; intros x.
  - reflexivity.
  - change (join LF (x :: y :: rest)) with (x +:+ LF +:+ join LF (y :: rest)).
    rewrite !string_app_assoc, IH. reflexivity.
Qed.

Section ExtractOutput.

Variable buildFailure : World -> ExecutionOptions -> Z -> option string.
Variable Contexts : Type.
Variable loadRuntimeContexts : World -> PackageInfo -> Z -> string -> Contexts.
Variable collectClassesFromContexts : Contexts -> (string -> bool) -> gset string.
Variable collectClassesFromTailwindV4 :
  World -> NormalizedTailwindcssPatchOptions -> Result (gset string).
Variable path_resolve : string -> string.
Variable path_dirname : string -> string.
Variable process_cwd : string.

Local Abbreviation getClassSet' :=
  (getClassSet buildFailure loadRuntimeContexts collectClassesFromContexts
               collectClassesFromTailwindV4).
Local Abbreviation extract' :=
  (extract buildFailure loadRuntimeContexts collectClassesFromContexts
           collectClassesFromTailwindV4 path_resolve path_dirname process_cwd).

Lemma extract_flag (this : TailwindcssPatcher) (opts : option ExtractOptions) :
  nullish (match opts with Some o => write o | None => None end)
          (Output.enabled (output (options this)))
  = resolvedWriteFlag this opts.
Proof. destruct opts as [[[flag|]]|]; reflexivity. Qed.

(** X8: an explicit [write: false] wins over the options: whatever
    [output.enabled] and [output.file] are, [extract] then does what
    [getClassSet] does and nothing more, and reports no file.  The same
    holds without a flag when [output.enabled] is false. *)
Theorem extract_write_false_wins :
  forall (this : TailwindcssPatcher) (opts : option ExtractOptions) (w : World),
    opts = Some (mkExtractOptions (Some false))
    \/ ((opts = None \/ opts = Some (mkExtractOptions None))
        /\ Output.enabled (output (options this)) = false) ->
    extract' this opts w =
      match getClassSet' this w with
      | (Ok set, w1) =>
          (Ok {| classList := elements set; classSet := set; filename := None |}, w1)
      | (Throw m, w1) => (Throw m, w1)
      end.
Proof.
  intros this opts w Hoff.
  assert (Hflag : resolvedWriteFlag this opts = false).
  { destruct Hoff as [->|[[->| ->] Hen]]; [reflexivity|exact Hen|exact Hen]. }
  unfold extract. rewrite extract_flag, Hflag. cbn [negb orb].
  unfold bind. destruct (getClassSet' this w) as [[set|m] w1]; reflexivity.
Qed.

(** X9: when [extract] reports a file, that file is the resolved
    [output.file]; after the collection its directory was ensured, then
    the file was written once, then one success line was logged, and
    nothing else happened.  The written data is the returned class list
    (JSON, indented only by a numeric [pretty]) or, for the lines format,
    every class followed by a line feed (a lone line feed for no class).
    The class list enumerates the class set without repetition. *)
Theorem extract_artefact_is_result :
  forall (this : TailwindcssPatcher) (opts : option ExtractOptions) (w w2 : World)
         (r : ExtractResult) (target : string),
    extract' this opts w = (Ok r, w2) ->
    filename r = Some target ->
    exists file w1,
      Output.file (output (options this)) = Some file
      /\ file <> ""
      /\ target = path_resolve file
      /\ getClassSet' this w = (Ok (classSet r), w1)
      /\ NoDup (classList r)
      /\ (forall c, c ∈ classList r <-> c ∈ classSet r)
      /\ w2 = {| cacheFile := cacheFile w1;
                 trace := trace w1 ++
                   [EnsureDir (path_dirname target);
                    outputArtefact this target (classList r);
                    LoggerSuccess ("Tailwind CSS class list saved to "
                                   +:+ replace_first process_cwd "." target)] |}.
Proof.
  intros this opts w w2 r target. unfold extract. rewrite extract_flag.
  unfold bind at 1. destruct (getClassSet' this w) as [[set|m] w1]; [|discriminate].
  destruct (negb (resolvedWriteFlag this opts)
            || negb (truthy_string (Output.file (output (options this))))) eqn:Hskip.
  - unfold ret. intros [= <- <-]. discriminate.
  - apply orb_false_elim in Hskip as [_ Hfile]. apply negb_false_iff in Hfile.
    destruct (Output.file (output (options this))) as [file|] eqn:Hf; [|discriminate Hfile].
    assert (Hne : file <> "").
    { intros ->. discriminate Hfile. }
    cbn [nullish].
    unfold outputArtefact.
    destruct (Output.format (output (options this)));
      unfold bind, fs_ensureDir, fs_writeJSON, fs_writeFile, logger_success, emit, ret;
      cbn [cacheFile trace]; intros [= <- <-]; cbn [filename]; intros [= <-];
      exists file, w1; cbn [classSet classList];
      rewrite <- !app_assoc; cbn [app]; rewrite ?join_LF_terminated;
      (repeat split;
       [assumption | apply NoDup_elements | apply elem_of_elements | apply elem_of_elements]).
Qed.

End ExtractOutput.

Lemma extract_write_false_wins_witness :
  extract Sample.buildFailure Sample.loadRuntimeContexts Sample.collectClassesFromContexts
          Sample.collectClassesFromTailwindV4 Sample.path_resolve Sample.path_dirname
          Sample.process_cwd (Sample.patcher 4 false merge (Some "out/classes.json"))
          (Some (mkExtractOptions (Some false))) Sample.emptyWorld
  = (Ok {| classList := elements ({[ "grid"; "gap-2" ]} : gset string);
           classSet := {[ "grid"; "gap-2" ]};
           filename := None |},
     {| cacheFile := None; trace := [CollectClassesFromTailwindV4] |}).
Proof.
  rewrite (extract_write_false_wins Sample.buildFailure _ Sample.loadRuntimeContexts
             Sample.collectClassesFromContexts Sample.collectClassesFromTailwindV4
             Sample.path_resolve Sample.path_dirname Sample.process_cwd).
  - reflexivity.
  - left. reflexivity.
Defined.

Lemma extract_artefact_is_result_witness :
  exists r w1 w2,
    extract Sample.buildFailure Sample.loadRuntimeContexts Sample.collectClassesFromContexts
            Sample.collectClassesFromTailwindV4 Sample.path_resolve Sample.path_dirname
            Sample.process_cwd (Sample.patcher 4 false merge (Some "out/classes.json"))
            None Sample.emptyWorld = (Ok r, w2)
    /\ filename r = Some "/project/out/classes.json"
    /\ w2 = {| cacheFile := cacheFile w1;
               trace := trace w1 ++
                 [EnsureDir "/project/out";
                  WriteJSON "/project/out/classes.json" (classList r) (Some 2);
                  LoggerSuccess "Tailwind CSS class list saved to ./out/classes.json"] |}.
Proof.
  pose (r := {| classList := elements ({[ "grid"; "gap-2" ]} : gset string);
                classSet := {[ "grid"; "gap-2" ]};
                filename := Some "/project/out/classes.json" |}).
  pose (w2 := {| cacheFile := None;
                 trace := [CollectClassesFromTailwindV4;
                           EnsureDir "/project/out";
                           WriteJSON "/project/out/classes.json" (classList r) (Some 2);
                           LoggerSuccess "Tailwind CSS class list saved to ./out/classes.json"] |}).
  destruct (extract_artefact_is_result Sample.buildFailure _ Sample.loadRuntimeContexts
              Sample.collectClassesFromContexts Sample.collectClassesFromTailwindV4
              Sample.path_resolve Sample.path_dirname Sample.process_cwd
              (Sample.patcher 4 false merge (Some "out/classes.json")) None
              Sample.emptyWorld w2 r "/project/out/classes.json" eq_refl eq_refl)
    as (file & w1 & _ & _ & _ & _ & _ & _ & Hw2).
  exists r, w1, w2. split; [reflexivity|]. split; [reflexivity|]. exact Hw2.
Defined.

(** * Properties of the command line *)

(** ** Grouped preview *)

Lemma slice_to_length {A : Type} (stop : Z) (l : list A) :
  0 <= stop ->
  Z.of_nat (length (slice_to stop l)) = Z.min stop (Z.of_nat (length l)).
Proof.
  intros Hs. unfold slice_to.
  assert ((stop <? 0) = false) as -> by lia.
  rewrite length_take. lia.
Qed.

Lemma string_app_empty (a b : string) : a +:+ b = "" -> a = "" /\ b = "".
Proof.
  destruct a as [|x a].
  - intros Hb. split; [reflexivity|exact Hb].
  - intros Hb. discriminate Hb.
Qed.

Lemma join_nonempty (sep x : string) (rest : list string) :
  x <> "" -> join sep (x :: rest) <> "".
Proof.
  intros Hx. destruct rest as [|y rest]; [exact Hx|].
  change (join sep (x :: y :: rest)) with (x +:+ sep +:+ join sep (y :: rest)).
  intros He. apply string_app_empty in He as [He _]. contradiction.
Qed.

(** X12: for a limit of at least 0, the lines of the grouped preview and
    the count of further files add up to the number of files, and further
    files are reported exactly when there are more files than the limit;
    no file gives the empty preview and no further files. *)
Theorem formatGroupedPreview_counts :
  forall (map : TailwindTokenByFileMap) (limit : Z),
    0 <= limit ->
    let shown := formatGroupedPreview map limit in
    Z.of_nat (length (groupedPreviewLines map limit)) + moreFiles shown
      = Z.of_nat (length map)
    /\ (0 < moreFiles shown <-> limit < Z.of_nat (length map))
    /\ (map = [] -> shown = {| preview := ""; moreFiles := 0 |}).
Proof.
  intros map limit Hl shown.
  assert (Hlines : Z.of_nat (length (groupedPreviewLines map limit))
                   = Z.min limit (Z.of_nat (length map))).
  { unfold groupedPreviewLines. rewrite length_map, slice_to_length by exact Hl.
    rewrite length_map. reflexivity. }
  subst shown. unfold formatGroupedPreview. rewrite length_map.
  destruct map as [|entry map].
  - cbn. rewrite Hlines. cbn. split; [lia|]. split; [lia|]. intros _. reflexivity.
  - cbn [length Nat.ltb Nat.leb negb moreFiles]. rewrite Hlines.
    cbn [length]. split; [lia|]. split; [lia|]. intros Hnil. discriminate Hnil.
Qed.

Lemma formatGroupedPreview_counts_witness :
  let token := mkTokenLocation "/p/a.html" "a.html" 1 1 0 4 "flex" in
  let map := [("a.html", [token]); ("b.html", []); ("c.html", [token; token]);
              ("d.html", [token]); ("e.html", [])] in
  Z.of_nat (length (groupedPreviewLines map 3)) + moreFiles (formatGroupedPreview map 3) = 5
  /\ formatGroupedPreview map 3 =
       {| preview := "a.html: 1 tokens (flex)" +:+ LF +:+ "b.html: 0 tokens ()" +:+ LF
                     +:+ "c.html: 2 tokens (flex, flex)";
          moreFiles := 2 |}.
Proof.
  intros token map. split.
  - apply (formatGroupedPreview_counts map 3). lia.
  - vm_compute. reflexivity.
Defined.

(** X13: for a limit of at least 1, the grouped preview is the empty
    string exactly when the map has no file, so the command prints a
    preview for every non-empty map. *)
Theorem formatGroupedPreview_empty_iff :
  forall (map : TailwindTokenByFileMap) (limit : Z),
    1 <= limit ->
    (preview (formatGroupedPreview map limit) = "" <-> map = []).
Proof.
  intros map limit Hl. split.
  - destruct map as [|[file tokens] map]; [reflexivity|]. intros He. exfalso.
    unfold formatGroupedPreview in He. cbn [List.map length Nat.ltb Nat.leb negb preview] in He.
    unfold groupedPreviewLines, slice_to in He.
    assert ((limit <? 0) = false) as Hneg by lia. rewrite Hneg in He.
    cbn [List.map length] in He.
    destruct (Z.to_nat (Z.min limit (Z.of_nat (S (length (List.map fst map))))))
      as [|n] eqn:Hn; [lia|].
    cbn [take List.map fst] in He.
    revert He. apply join_nonempty.
    intros Hline. apply string_app_empty in Hline as [_ Hrest]. discriminate Hrest.
  - intros ->. reflexivity.
Qed.

Lemma formatGroupedPreview_empty_iff_witness :
  preview (formatGroupedPreview [] 3) = ""
  /\ preview (formatGroupedPreview [("", [])] 3) <> "".
Proof.
  split.
  - apply (formatGroupedPreview_empty_iff [] 3); [lia|reflexivity].
  - intros He. apply (formatGroupedPreview_empty_iff [("", [])] 3) in He; [discriminate|lia].
Defined.

(** ** The [tokens] command *)

Lemma skipped_warnings_are_warnings (report : TailwindTokenReport) :
  Forall (fun e => is_fs_event e = false) (skippedWarnings report)
  /\ cliFilesWritten (skippedWarnings report) = []
  /\ List.filter is_warning (skippedWarnings report) = skippedWarnings report.
Proof.
  unfold skippedWarnings. destruct (skippedFiles report) as [|f skipped].
  - repeat split. constructor.
  - generalize (f :: skipped). intros l. cbn [cliFilesWritten List.filter is_warning].
    induction l as [|x l (IHa & IHb & IHc)].
    + repeat split. repeat constructor.
    + cbn [List.map cliFilesWritten List.filter is_warning] in *. repeat split.
      * inversion IHa as [|? ? Hh Ht]. repeat constructor. exact Ht.
      * exact IHb.
      * injection IHc as IHc. rewrite IHc. reflexivity.
Qed.

Section TokensCommand.

Variable path_resolve : string -> string.
Variable path_dirname : string -> string.
Variable process_cwd : string.
Variable groupTokensByFile : TailwindTokenReport -> GroupOptions -> TailwindTokenByFileMap.

Local Abbreviation tokensOutput' :=
  (tokensOutput path_resolve path_dirname process_cwd groupTokensByFile).

Lemma tokensOutput_tail (args : TokensArgs) (report : TailwindTokenReport) :
  exists before, tokensOutput' args report = before ++ skippedWarnings report
  /\ (tokens_args_write args = Some false ->
      Forall (fun e => is_fs_event e = false) before
      /\ cliFilesWritten before = []).
Proof.
  unfold tokensOutput.
  match goal with
  | |- exists before, ?a ++ ?b = _ /\ _ =>
      assert (Hb : b = skippedWarnings report)
  end.
  { unfold skippedWarnings. destruct (skippedFiles report); reflexivity. }
  rewrite Hb. eexists. split; [reflexivity|].
  intros ->. cbn [nullish].
  repeat match goal with
         | |- context [if ?c then _ else _] => destruct c
         end;
    split; repeat constructor.
Qed.

(** X14: with [--no-write] the [tokens] command does not touch the file
    system: it ensures no directory and writes no file, for every format
    and report.  Otherwise it ensures the directory of the resolved target
    (the given output, else the default report path) and then writes
    exactly that one file. *)
Theorem tokens_command_write_flag :
  forall (args : TokensArgs) (report : TailwindTokenReport),
    let target :=
      path_resolve (nullish (tokens_args_output args) ".tw-patch/tw-token-report.json") in
    (tokens_args_write args = Some false ->
       Forall (fun e => is_fs_event e = false) (tokensOutput' args report)
       /\ cliFilesWritten (tokensOutput' args report) = [])
    /\ (tokens_args_write args <> Some false ->
        (exists artefact rest,
           tokensOutput' args report = CliEnsureDir (path_dirname target) :: artefact :: rest
           /\ cliFilesWritten [artefact] = [target]
           /\ Forall (fun e => is_fs_event e = false) rest)
        /\ cliFilesWritten (tokensOutput' args report) = [target]).
Proof.
  intros args report target.
  pose proof (skipped_warnings_are_warnings report) as (Hwfs & Hwfiles & _).
  split.
  - intros Hoff.
    destruct (tokensOutput_tail args report) as (before & -> & Hbefore).
    destruct (Hbefore Hoff) as [Hfs Hfiles].
    split.
    + apply Forall_app. split; assumption.
    + clear - Hfiles Hwfiles.
      induction before as [|e before IH]; [exact Hwfiles|].
      destruct e; cbn [app cliFilesWritten] in *; try discriminate; auto.
  - intros Hon.
    assert (Hflag : nullish (tokens_args_write args) true = true).
    { destruct (tokens_args_write args) as [[|]|]; [reflexivity|contradiction|reflexivity]. }
    assert (Hshape : exists artefact message,
               tokensOutput' args report =
                 [CliEnsureDir (path_dirname target); artefact; CliSuccess message]
                 ++ skippedWarnings report
               /\ cliFilesWritten [artefact] = [target]).
    { unfold tokensOutput. rewrite Hflag. fold target.
      match goal with
      | |- exists artefact message, _ ++ ?b = _ /\ _ =>
          assert (Hb : b = skippedWarnings report)
      end.
      { unfold skippedWarnings. destruct (skippedFiles report); reflexivity. }
      rewrite Hb.
      repeat match goal with
             | |- context [if String.eqb ?a ?b then _ else _] => destruct (String.eqb a b)
             end;
        eexists _, _; (split; [reflexivity|reflexivity]). }
    destruct Hshape as (artefact & message & Hout & Hart).
    split.
    + exists artefact, (CliSuccess message :: skippedWarnings report).
      split; [exact Hout|]. split; [exact Hart|].
      constructor; [reflexivity|exact Hwfs].
    + rewrite Hout. cbn [app cliFilesWritten].
      destruct artefact; cbn [cliFilesWritten] in Hart |- *; try discriminate Hart;
        rewrite Hwfiles; exact Hart.
Qed.

(** X15: a format that is not one of json, lines, grouped-json is
    treated as json throughout, as is no format: the command then does
    exactly what it does for json, down to the logged lines. *)
Theorem tokens_command_unknown_format :
  forall (args : TokensArgs) (report : TailwindTokenReport),
    tokens_args_format args = None
    \/ (exists f, tokens_args_format args = Some f /\ f <> "json" /\ f <> "lines"
                  /\ f <> "grouped-json") ->
    tokensOutput' args report = tokensOutput' (withFormat args (Some "json")) report.
Proof.
  intros args report [Hnone|(f & Hf & H1 & H2 & H3)]; unfold tokensOutput, withFormat;
    cbn [tokens_args_format tokens_args_write tokens_args_output tokens_args_groupKey].
  - rewrite Hnone. reflexivity.
  - rewrite Hf. cbn [nullish].
    assert (includes_string TOKEN_FORMATS f = false) as ->.
    { unfold includes_string, TOKEN_FORMATS. cbn [existsb].
      apply String.eqb_neq in H1, H2, H3. rewrite H1, H2, H3. reflexivity. }
    reflexivity.
Qed.

(** X16: the command warns about skipped files last and only then: no
    warning when no file was skipped, else one heading and one line per
    skipped file, in the order of the report. *)
Theorem tokens_command_skipped_warnings :
  forall (args : TokensArgs) (report : TailwindTokenReport),
    exists before,
      tokensOutput' args report = before ++ skippedWarnings report
      /\ List.filter is_warning before = []
      /\ length (List.filter is_warning (tokensOutput' args report))
         = match skippedFiles report with
           | [] => 0%nat
           | skipped => S (length skipped)
           end.
Proof.
  intros args report.
  pose proof (skipped_warnings_are_warnings report) as (_ & _ & Hw).
  assert (Hshape : exists before,
             tokensOutput' args report = before ++ skippedWarnings report
             /\ List.filter is_warning before = []).
  { unfold tokensOutput.
    match goal with
    | |- exists before, ?a ++ ?b = _ /\ _ =>
        assert (Hb : b = skippedWarnings report)
    end.
    { unfold skippedWarnings. destruct (skippedFiles report); reflexivity. }
    rewrite Hb. eexists. split; [reflexivity|].
    repeat match goal with
           | |- context [if ?c then _ else _] => destruct c
           end; reflexivity. }
  destruct Hshape as (before & Hout & Hbefore).
  exists before. split; [exact Hout|]. split; [exact Hbefore|].
  rewrite Hout, List.filter_app, Hbefore, Hw. cbn [app].
  unfold skippedWarnings. destruct (skippedFiles report) as [|f skipped]; [reflexivity|].
  cbn [length]. rewrite length_map. reflexivity.
Qed.

End TokensCommand.

(** * Properties of the test helper *)





(** A configuration with patterns, normalised. *)
Example normaliseRegex_on_patterns :
  normaliseRegex
    (JsObject [("include", JsArray [JsRegExp "\.[jt]sx?$" ""; JsString "src"]);
               ("filter", JsObject [("exclude", JsRegExp "node_modules" "i")])])
  = JsObject [("include", JsArray [JsString "/\.[jt]sx?$/"; JsString "src"]);
              ("filter", JsObject [("exclude", JsString "/node_modules/i")])].
Proof. reflexivity. Qed.

(** * Properties that span several operations *)

Lemma filesWritten_app (a b : list Event) :
  filesWritten (a ++ b) = filesWritten a ++ filesWritten b.
Proof.
  induction a as [|e a IH]; [reflexivity|].
  destruct e; cbn [app filesWritten]; rewrite ?IH; reflexivity.
Qed.

Lemma collecting_events_write_no_file (evs : list Event) :
  Forall (fun e => is_collecting_event e = true) evs ->
  filesWritten evs = [].
Proof.
  intros H.
  induction H as [|e evs He _ IH]; [reflexivity|].
  destruct e; cbn [filesWritten]; try exact IH; discriminate He.
Qed.

Lemma cache_events_are_collecting (evs : list Event) :
  Forall (fun e => is_cache_access e = true) evs ->
  Forall (fun e => is_collecting_event e = true) evs.
Proof.
  intros H. induction H as [|e evs He _ IH]; constructor; [|exact IH].
  unfold is_collecting_event. rewrite He. apply orb_true_r.
Qed.

Section WholeRuns.

Variable coerce : string -> option SemVer.
Variables Registry LegacyPatch LegacyTailwindcssPatcherOptions TailwindcssPatchOptions : Type.
Variable getConfig : World -> string -> Result (option (LoadedConfig Registry LegacyPatch)).
Variable fromUnifiedConfig : Registry -> TailwindcssPatchOptions.
Variable fromLegacyOptions : LegacyTailwindcssPatcherOptions -> TailwindcssPatchOptions.
Variable patchObject : LegacyPatch -> LegacyTailwindcssPatcherOptions.
Variable emptyOptions : TailwindcssPatchOptions.
Variable defu : Overrides -> TailwindcssPatchOptions -> TailwindcssPatchOptions.
Variable normalizeOptions : TailwindcssPatchOptions -> NormalizedTailwindcssPatchOptions.
Variable getPackageInfoSync : string -> option (list string) -> option PackageInfo.
Variable buildFailure : World -> ExecutionOptions -> Z -> option string.
Variable Contexts : Type.
Variable loadRuntimeContexts : World -> PackageInfo -> Z -> string -> Contexts.
Variable collectClassesFromContexts : Contexts -> (string -> bool) -> gset string.
Variable collectClassesFromTailwindV4 :
  World -> NormalizedTailwindcssPatchOptions -> Result (gset string).
Variable path_resolve : string -> string.
Variable path_dirname : string -> string.
Variable process_cwd : string.
Variable projectFiles : string -> list string.
Variable sourceMatches : string -> SourceEntry -> string -> bool.
Variable extractFile : string -> string + list TokenLocation.
Variable groupTokensByFile : TailwindTokenReport -> GroupOptions -> TailwindTokenByFileMap.

Local Abbreviation getClassSet' :=
  (getClassSet buildFailure loadRuntimeContexts collectClassesFromContexts
               collectClassesFromTailwindV4).
Local Abbreviation getClassSetSync' :=
  (getClassSetSync loadRuntimeContexts collectClassesFromContexts).
Local Abbreviation extract' :=
  (extract buildFailure loadRuntimeContexts collectClassesFromContexts
           collectClassesFromTailwindV4 path_resolve path_dirname process_cwd).
Local Abbreviation loadPatchOptions' :=
  (loadPatchOptions getConfig fromUnifiedConfig fromLegacyOptions patchObject emptyOptions defu).
Local Abbreviation newPatcher' :=
  (newPatcher coerce fromLegacyOptions normalizeOptions getPackageInfoSync).
Local Abbreviation extractCommand' :=
  (extractCommand coerce getConfig fromUnifiedConfig fromLegacyOptions patchObject
     emptyOptions defu normalizeOptions getPackageInfoSync buildFailure loadRuntimeContexts
     collectClassesFromContexts collectClassesFromTailwindV4 path_resolve path_dirname
     process_cwd).
Local Abbreviation tokensCommand' :=
  (tokensCommand coerce getConfig fromUnifiedConfig fromLegacyOptions patchObject
     emptyOptions defu normalizeOptions getPackageInfoSync path_resolve path_dirname
     process_cwd projectFiles sourceMatches extractFile groupTokensByFile).

Lemma getClassSet_event_kinds (this : TailwindcssPatcher) (w : World) :
  exists r cf evs,
    getClassSet' this w = (r, {| cacheFile := cf; trace := trace w ++ evs |})
    /\ Forall (fun e => is_collecting_event e = true) evs.
Proof.
  unfold getClassSet.
  assert (Hrest : forall w0, exists r cf evs,
             (let* set := collectClassSet loadRuntimeContexts collectClassesFromContexts
                            collectClassesFromTailwindV4 this in
              mergeWithCache this set) w0
             = (r, {| cacheFile := cf; trace := trace w0 ++ evs |})
             /\ Forall (fun e => is_collecting_event e = true) evs).
  { intros w0.
    assert (Hc : exists r e,
               collectClassSet loadRuntimeContexts collectClassesFromContexts
                 collectClassesFromTailwindV4 this w0
               = (r, {| cacheFile := cacheFile w0; trace := trace w0 ++ [e] |})
               /\ is_collecting_event e = true).
    { unfold collectClassSet. destruct (majorVersion this =? 4).
      - eexists _, _. split; [reflexivity|reflexivity].
      - eexists _, _. split; [reflexivity|reflexivity]. }
    destruct Hc as (r & e & Hc & He). destruct r as [set|m].
    - rewrite (bind_Ok _ _ _ _ _ Hc).
      destruct (mergeWithCache_cache_events this set
                  {| cacheFile := cacheFile w0; trace := trace w0 ++ [e] |})
        as (r' & cf & evs & Hm & Hevs).
      rewrite Hm. cbn [trace]. rewrite <- app_assoc.
      eexists _, _, _. split; [reflexivity|].
      constructor; [exact He|]. apply cache_events_are_collecting. exact Hevs.
    - rewrite (bind_Throw _ _ _ _ _ Hc).
      eexists _, _, _. split; [reflexivity|]. constructor; [exact He|constructor]. }
  unfold runTailwindBuildIfNeeded.
  destruct ((majorVersion this =? 2) || (majorVersion this =? 3)).
  - unfold runTailwindBuild, bind at 1.
    destruct (buildFailure w _ (majorVersion this)).
    + eexists _, _, _. split; [reflexivity|]. constructor; [reflexivity|constructor].
    + match goal with
      | |- context [bind _ _ ?w1] => destruct (Hrest w1) as (r & cf & evs & Hr & Hevs)
      end.
      rewrite Hr. cbn [trace]. rewrite <- app_assoc.
      eexists _, _, _. split; [reflexivity|]. constructor; [reflexivity|exact Hevs].
  - unfold bind at 1, ret. destruct (Hrest w) as (r & cf & evs & Hr & Hevs).
    rewrite Hr. eexists _, _, _. split; [reflexivity|exact Hevs].
Qed.

(** X17: whatever the version and the outcome, [getClassSet] only
    builds, collects and accesses the cache: it ensures no directory,
    writes no output file and logs nothing. *)
Theorem getClassSet_only_collects :
  forall (this : TailwindcssPatcher) (w : World),
    exists evs,
      trace (getClassSet' this w).2 = trace w ++ evs
      /\ Forall (fun e => is_collecting_event e = true) evs
      /\ filesWritten (trace (getClassSet' this w).2) = filesWritten (trace w).
Proof.
  intros this w.
  destruct (getClassSet_event_kinds this w) as (r & cf & evs & -> & Hevs).
  exists evs. cbn [snd trace]. split; [reflexivity|]. split; [exact Hevs|].
  rewrite filesWritten_app.
  rewrite (collecting_events_write_no_file evs Hevs). apply app_nil_r.
Qed.

Lemma loadPatchOptions_world (cwd : string) (overrides : option Overrides) (w : World) :
  exists r, loadPatchOptions' cwd overrides w = (r, w).
Proof.
  unfold loadPatchOptions, bind, ret. destruct (getConfig w cwd); eexists; reflexivity.
Qed.

Lemma newPatcher_not_located (options : TailwindcssPatchOptions) (w : World) :
  getPackageInfoSync (Tailwind.packageName (tailwind (normalizeOptions options)))
                     (Tailwind.resolve (tailwind (normalizeOptions options))) = None ->
  exists m, newPatcher' options w = (Throw m, w).
Proof.
  intros Hnone. unfold newPatcher, liftResult, new_TailwindcssPatcher.
  rewrite Hnone. eexists. reflexivity.
Qed.

(** X18: when the package cannot be located for any options, the
    [extract] and [tokens] commands fail before anything is done: no
    build, no collection, no scan, no cache access, no file written. *)
Theorem commands_fail_without_package :
  (forall options,
      getPackageInfoSync (Tailwind.packageName (tailwind (normalizeOptions options)))
                         (Tailwind.resolve (tailwind (normalizeOptions options))) = None) ->
  forall (w : World) (extractArgs : ExtractArgs) (tokensArgs : TokensArgs),
    (exists m, extractCommand' extractArgs w = (Throw m, w))
    /\ (exists m, tokensCommand' tokensArgs w = (Throw m, w)).
Proof.
  intros Hnone w extractArgs tokensArgs. split.
  - unfold extractCommand.
    match goal with
    | |- context [loadPatchOptions' ?cwd ?ov] =>
        destruct (loadPatchOptions_world cwd ov w) as ([options|m] & Hload)
    end.
    + rewrite (bind_Ok _ _ _ _ _ Hload).
      destruct (newPatcher_not_located options w (Hnone options)) as (m & Hnew).
      rewrite (bind_Throw _ _ _ _ _ Hnew). eexists. reflexivity.
    + rewrite (bind_Throw _ _ _ _ _ Hload). eexists. reflexivity.
  - unfold tokensCommand.
    destruct (loadPatchOptions_world (tokens_args_cwd tokensArgs) None w)
      as ([options|m] & Hload).
    + rewrite (bind_Ok _ _ _ _ _ Hload).
      destruct (newPatcher_not_located options w (Hnone options)) as (m & Hnew).
      rewrite (bind_Throw _ _ _ _ _ Hnew). eexists. reflexivity.
    + rewrite (bind_Throw _ _ _ _ _ Hload). eexists. reflexivity.
Qed.

Lemma extract_without_write (this : TailwindcssPatcher) (opts : option ExtractOptions)
    (w : World) :
  resolvedWriteFlag this opts = false ->
  extract' this opts w =
    match getClassSet' this w with
    | (Ok set, w1) =>
        (Ok {| classList := elements set; classSet := set; filename := None |}, w1)
    | (Throw m, w1) => (Throw m, w1)
    end.
Proof.
  intros Hflag. unfold extract.
  assert (nullish (match opts with Some o => write o | None => None end)
                  (Output.enabled (output (options this)))
          = resolvedWriteFlag this opts) as ->.
  { destruct opts as [[[flag|]]|]; reflexivity. }
  rewrite Hflag. cbn [negb orb].
  unfold bind. destruct (getClassSet' this w) as [[set|m] w1]; reflexivity.
Qed.

(** X19: with [--no-write] the [extract] command, when it succeeds,
    logs the count-only line, never the line naming a file; all it did
    before was building, collecting and accessing the cache, so no output
    file was written. *)
Theorem extract_command_no_write :
  forall (args : ExtractArgs) (w w' : World) (evs : list CliEvent),
    extract_args_write args = Some false ->
    extractCommand' args w = (Ok evs, w') ->
    (exists n : nat, evs = [CliSuccess ("Collected " +:+ pretty n +:+ " classes.")])
    /\ (exists done,
          trace w' = trace w ++ done
          /\ Forall (fun e => is_collecting_event e = true) done)
    /\ filesWritten (trace w') = filesWritten (trace w).
Proof.
  intros args w w' evs Hoff. unfold extractCommand.
  match goal with
  | |- context [loadPatchOptions' ?cwd ?ov] =>
      destruct (loadPatchOptions_world cwd ov w) as ([options|m] & Hload)
  end.
  2: { rewrite (bind_Throw _ _ _ _ _ Hload). discriminate. }
  rewrite (bind_Ok _ _ _ _ _ Hload).
  unfold newPatcher, liftResult at 1, bind at 1.
  destruct (new_TailwindcssPatcher coerce fromLegacyOptions normalizeOptions
              getPackageInfoSync (CurrentShape options)) as [this|m]; [|discriminate].
  rewrite Hoff. unfold bind at 1.
  rewrite (extract_without_write this (Some (mkExtractOptions (Some false))) w eq_refl).
  destruct (getClassSet_event_kinds this w) as (r & cf & done & Hget & Hdone).
  rewrite Hget. destruct r as [set|m]; [|discriminate].
  cbn [filename truthy_string classList]. unfold ret.
  intros [= <- <-]. split; [eexists; reflexivity|]. cbn [trace].
  split; [exists done; split; [reflexivity|exact Hdone]|].
  rewrite filesWritten_app.
  rewrite (collecting_events_write_no_file done Hdone). apply app_nil_r.
Qed.

(** X10: a patcher constructed with the version hint 4, or with no usable
    hint from a package whose version coerces to major 4 or more, has no
    synchronous collection: [getClassSetSync] on it always throws. *)
Theorem constructed_v4_has_no_sync_path :
  forall (init : TailwindcssPatcherInitOptions LegacyTailwindcssPatcherOptions
                   TailwindcssPatchOptions)
         (this : TailwindcssPatcher) (w : World),
    new_TailwindcssPatcher coerce fromLegacyOptions normalizeOptions getPackageInfoSync init
      = Ok this ->
    Tailwind.versionHint (tailwind (options this)) = Some 4
    \/ (~ validHint (Tailwind.versionHint (tailwind (options this)))
        /\ exists v c, version (packageInfo this) = Some v /\ v <> ""
                       /\ coerce v = Some c /\ 4 <= major c) ->
    majorVersion this = 4
    /\ getClassSetSync' this w =
         (Throw "getClassSetSync is not supported for Tailwind CSS v4 projects. Use getClassSet instead.",
          w).
Proof.
  intros init this w Hnew Hv4.
  assert (Hmajor : majorVersion this =
                   resolveMajorVersion coerce (version (packageInfo this))
                     (Tailwind.versionHint (tailwind (options this)))).
  { unfold new_TailwindcssPatcher in Hnew.
    destruct (getPackageInfoSync _ _) as [info|]; [|discriminate Hnew].
    injection Hnew as <-. reflexivity. }
  assert (H4 : majorVersion this = 4).
  { rewrite Hmajor. unfold resolveMajorVersion.
    destruct Hv4 as [->|(Hno & v & c & -> & Hne & Hc & Hge)]; [reflexivity|].
    rewrite (hint_test_false _ Hno). cbn [truthy_string].
    destruct (String.eqb_spec v ""); [contradiction|]. cbn [negb]. rewrite Hc. cbn zeta.
    destruct ((major c =? 2) || (major c =? 3) || (major c =? 4)) eqn:Hb.
    - rewrite !orb_true_iff in Hb. lia.
    - assert ((major c >=? 4) = true) as -> by lia. reflexivity. }
  split; [exact H4|].
  unfold getClassSetSync, collectClassSetSync. rewrite H4. reflexivity.
Qed.

(** X11: [collectContentTokensByFile] scans exactly as
    [collectContentTokens] does for the same [cwd] and [sources], with the
    same defaults when they are left out (also when no options are given
    at all), and returns the grouping of that report under the given key
    options. *)
Theorem collectContentTokensByFile_groups_the_scan :
  forall (this : TailwindcssPatcher) (opts : option TokensByFileOptions) (w : World),
    let scan :=
      collectContentTokens projectFiles sourceMatches extractFile this (scanOptions opts) w in
    collectContentTokensByFile projectFiles sourceMatches extractFile groupTokensByFile
      this opts w
    = (match scan.1 with
       | Ok report => Ok (groupTokensByFile report (groupOptions opts))
       | Throw m => Throw m
       end, scan.2).
Proof.
  intros this opts w scan. subst scan.
  unfold collectContentTokensByFile, scanOptions, groupOptions.
  destruct opts as [o|].
  - unfold bind, ret.
    destruct (collectContentTokens projectFiles sourceMatches extractFile this _ w)
      as [[report|m] w1]; reflexivity.
  - assert (Hsame : collectContentTokens projectFiles sourceMatches extractFile this
                      (Some {| tokens_cwd := None; tokens_sources := None |})
                    = collectContentTokens projectFiles sourceMatches extractFile this None).
    { reflexivity. }
    rewrite Hsame. unfold bind, ret.
    destruct (collectContentTokens projectFiles sourceMatches extractFile this None w)
      as [[report|m] w1]; reflexivity.
Qed.

End WholeRuns.

(** ** The commands on the concrete project *)

Lemma tokens_command_write_flag_witness :
  let run write :=
    tokensOutput Sample.path_resolve Sample.path_dirname Sample.process_cwd
      SampleCli.groupTokensByFile (SampleCli.tokensArgs (Some "lines") write)
      SampleCli.report in
  cliFilesWritten (run (Some false)) = []
  /\ cliFilesWritten (run None) = ["/project/.tw-patch/tw-token-report.json"].
Proof.
  intros run. split.
  - apply (tokens_command_write_flag Sample.path_resolve Sample.path_dirname
             Sample.process_cwd SampleCli.groupTokensByFile
             (SampleCli.tokensArgs (Some "lines") (Some false)) SampleCli.report).
    reflexivity.
  - apply (tokens_command_write_flag Sample.path_resolve Sample.path_dirname
             Sample.process_cwd SampleCli.groupTokensByFile
             (SampleCli.tokensArgs (Some "lines") None) SampleCli.report).
    discriminate.
Defined.

Lemma tokens_command_unknown_format_witness :
  tokensOutput Sample.path_resolve Sample.path_dirname Sample.process_cwd
    SampleCli.groupTokensByFile (SampleCli.tokensArgs (Some "yaml") None) SampleCli.report
  = tokensOutput Sample.path_resolve Sample.path_dirname Sample.process_cwd
      SampleCli.groupTokensByFile (SampleCli.tokensArgs (Some "json") None) SampleCli.report.
Proof.
  apply (tokens_command_unknown_format Sample.path_resolve Sample.path_dirname
           Sample.process_cwd SampleCli.groupTokensByFile
           (SampleCli.tokensArgs (Some "yaml") None) SampleCli.report).
  right. exists "yaml". repeat split; discriminate.
Defined.

(** The [tokens] command without writing, in the lines format: the count,
    a preview of the one token, then the skipped file. *)
Example tokens_command_preview :
  tokensOutput Sample.path_resolve Sample.path_dirname Sample.process_cwd
    SampleCli.groupTokensByFile (SampleCli.tokensArgs (Some "lines") (Some false))
    SampleCli.report
  = [CliSuccess "Collected 1 tokens from 2 files.";
     CliLog "";
     CliInfo "src/a.html:1:13 flex (12-16)";
     CliWarn "Skipped files:";
     CliWarn "  • src/b.html (unreadable)"].
Proof. vm_compute. reflexivity. Qed.

Lemma commands_fail_without_package_witness :
  exists m,
    tokensCommand coerce_dotted SampleCli.getConfig SampleCli.fromUnifiedConfig
      Sample.fromLegacyOptions SampleCli.patchObject SampleCli.emptyOptions SampleCli.defu
      Sample.normalizeOptions SampleCli.notInstalled Sample.path_resolve Sample.path_dirname
      Sample.process_cwd Sample.projectFiles Sample.sourceMatches Sample.extractFile
      SampleCli.groupTokensByFile (SampleCli.tokensArgs None None) Sample.emptyWorld
    = (Throw m, Sample.emptyWorld).
Proof.
  apply (commands_fail_without_package coerce_dotted _ _ _ _ SampleCli.getConfig
           SampleCli.fromUnifiedConfig Sample.fromLegacyOptions SampleCli.patchObject
           SampleCli.emptyOptions SampleCli.defu Sample.normalizeOptions
           SampleCli.notInstalled Sample.buildFailure _ Sample.loadRuntimeContexts
           Sample.collectClassesFromContexts Sample.collectClassesFromTailwindV4
           Sample.path_resolve Sample.path_dirname Sample.process_cwd Sample.projectFiles
           Sample.sourceMatches Sample.extractFile SampleCli.groupTokensByFile
           (fun options => eq_refl) Sample.emptyWorld
           (SampleCli.extractArgs None None) (SampleCli.tokensArgs None None)).
Defined.

Lemma extract_command_no_write_witness :
  exists n : nat,
    (extractCommand coerce_dotted SampleCli.getConfig SampleCli.fromUnifiedConfig
       Sample.fromLegacyOptions SampleCli.patchObject SampleCli.emptyOptions SampleCli.defu
       Sample.normalizeOptions Sample.getPackageInfoSync Sample.buildFailure
       Sample.loadRuntimeContexts Sample.collectClassesFromContexts
       Sample.collectClassesFromTailwindV4 Sample.path_resolve Sample.path_dirname
       Sample.process_cwd (SampleCli.extractArgs (Some "classes.json") (Some false))
       Sample.emptyWorld).1
    = Ok [CliSuccess ("Collected " +:+ pretty n +:+ " classes.")].
Proof.
  destruct (extract_command_no_write coerce_dotted _ _ _ _ SampleCli.getConfig
              SampleCli.fromUnifiedConfig Sample.fromLegacyOptions SampleCli.patchObject
              SampleCli.emptyOptions SampleCli.defu Sample.normalizeOptions
              Sample.getPackageInfoSync Sample.buildFailure _ Sample.loadRuntimeContexts
              Sample.collectClassesFromContexts Sample.collectClassesFromTailwindV4
              Sample.path_resolve Sample.path_dirname Sample.process_cwd
              (SampleCli.extractArgs (Some "classes.json") (Some false))
              Sample.emptyWorld
              {| cacheFile := None; trace := [CollectClassesFromTailwindV4] |}
              [CliSuccess "Collected 2 classes."]
              eq_refl eq_refl) as ((n & Hn) & _).
  exists n. rewrite <- Hn. reflexivity.
Defined.

(** With writing on, the same command names the file it wrote. *)
Example extract_command_writes :
  (extractCommand coerce_dotted SampleCli.getConfig SampleCli.fromUnifiedConfig
     Sample.fromLegacyOptions SampleCli.patchObject SampleCli.emptyOptions SampleCli.defu
     Sample.normalizeOptions Sample.getPackageInfoSync Sample.buildFailure
     Sample.loadRuntimeContexts Sample.collectClassesFromContexts
     Sample.collectClassesFromTailwindV4 Sample.path_resolve Sample.path_dirname
     Sample.process_cwd (SampleCli.extractArgs (Some "classes.json") None)
     Sample.emptyWorld).1
  = Ok [CliSuccess "Collected 2 classes → /project/classes.json"].
Proof. vm_compute. reflexivity. Qed.

Lemma constructed_v4_has_no_sync_path_witness :
  exists this,
    new_TailwindcssPatcher coerce_dotted Sample.fromLegacyOptions Sample.normalizeOptions
      Sample.getPackageInfoSync
      (CurrentShape (Sample.normalized "tailwindcss" (Some 4) true merge None)) = Ok this
    /\ getClassSetSync Sample.loadRuntimeContexts Sample.collectClassesFromContexts this
         (Sample.cachedWorld {[ "old" ]})
       = (Throw "getClassSetSync is not supported for Tailwind CSS v4 projects. Use getClassSet instead.",
          Sample.cachedWorld {[ "old" ]}).
Proof.
  exists (Sample.patcher 4 true merge None). split; [reflexivity|].
  apply (constructed_v4_has_no_sync_path coerce_dotted unit _ Sample.fromLegacyOptions
           Sample.normalizeOptions Sample.getPackageInfoSync _ Sample.loadRuntimeContexts
           Sample.collectClassesFromContexts
           (CurrentShape (Sample.normalized "tailwindcss" (Some 4) true merge None))
           (Sample.patcher 4 true merge None) (Sample.cachedWorld {[ "old" ]})).
  - reflexivity.
  - left. reflexivity.
Defined.
